(** * pyImageStack: a growable stack of images in one HDF5 container

    Shallow embedding of [pyImageStack/pyImageStack.py] (class [ImageStack])
    together with the part of its two collaborators, numpy and PyTables, that
    the class calls: [np.expand_dims], [tables.open_file],
    [File.create_earray], [File.create_table], [EArray.append],
    [EArray.__getitem__], [Table.row], [Row.__setitem__], [Row.append],
    [Table.flush] and [File.close].

    Python objects are mutable and shared; the embedding threads them
    explicitly.  The file system and PyTables' registry of open files form
    the [World]; the object tree of an open file lives in its [File] object;
    the attributes [data] and [metadata] of an [ImageStack] are references
    into that tree, as in the source, where they alias nodes of
    [self._h5file]. *)

From stdpp Require Import base option list strings gmap.

(** ** Exceptions and results *)

Inductive exn :=
  | AttributeError | TypeError | KeyError | ValueError | IndexError
  | OSError | OverflowError | NotImplementedError
  | NoSuchNodeError | FileModeError | ClosedNodeError.

Inductive result (A : Type) :=
  | Ok (a : A)
  | Raise (e : exn).
Arguments Ok {A} a.
Arguments Raise {A} e.

(** ** What the storage engine decides on its own

    Scalar types and their conversions belong to numpy and HDF5, not to this
    layer; they are kept abstract.  [Dtype] ranges over numpy's numeric
    dtypes, between which [np.array(a, dtype=d)] always converts; [Col] over
    PyTables column descriptors ([Int32Col()], [StringCol(itemsize=20)],
    ...), [Value] over the Python values stored in a column. *)

Class Engine := {
  Dtype : Type;
  Dtype_eq_dec :: EqDecision Dtype;
  Pixel : Type;
  (** [astype from to x]: numpy's conversion of one element. *)
  astype : Dtype → Dtype → Pixel → Pixel;
  Col : Type;
  Value : Type;
  (** the default of a column, used for the fields of a row left unset *)
  dflt : Col → Value;
  (** [row[key] = value] on a column of type [c]: the stored value, or the
      exception the engine raises when the value does not fit the column *)
  coerce : Col → Value → result Value;
  (** whether [create_table] accepts the description *)
  valid_description : gmap string Col → bool;
  (** capacity, in rows, of the I/O buffer of a table with this description *)
  nrowsinbuf : gmap string Col → nat;
}.

(** ** numpy arrays *)

Module np.
Section np.
Context `{Engine}.

(** An n-dimensional array: element type, shape and the elements in
    row-major order. *)
Record ndarray := {
  dtype : Dtype;
  shape : list nat;
  flat : list Pixel;
}.

(** [a.size]: the product of the dimensions. *)
Definition size (a : ndarray) : nat := foldr Nat.mul 1 (shape a).

(** An array owns exactly [size] elements. *)
Definition wf (a : ndarray) : Prop := length (flat a) = size a.

(** [np.expand_dims(a, axis)], for [axis <= a.ndim]. *)
Definition expand_dims (a : ndarray) (axis : nat) : ndarray :=
  {| dtype := dtype a;
     shape := take axis (shape a) ++ 1 :: drop axis (shape a);
     flat := flat a |}.

(** [np.array(a, dtype=d, copy=False)]: the array itself when it already
    has the dtype, an element-wise conversion otherwise. *)
Definition array (a : ndarray) (d : Dtype) : ndarray :=
  if decide (dtype a = d) then a
  else {| dtype := d; shape := shape a; flat := astype (dtype a) d <$> flat a |}.
End np.
End np.

(** ** PyTables *)

Module tables.
Section tables.
Context `{Engine}.

(** An extendable array whose first dimension grows ([extdim = 0], the
    only layout this layer creates): [nrows] items of shape [item_shape],
    stored one after another.  [atom] is the element type; an atom made by
    [Atom.from_dtype] is given by its dtype. *)
Record EArray := {
  atom : Dtype;
  nrows : nat;
  item_shape : list nat;
  buf : list Pixel;
}.

Definition shape (e : EArray) : list nat := nrows e :: item_shape e.

Definition item_size (e : EArray) : nat := foldr Nat.mul 1 (item_shape e).

(** The [Row] accessor of a table: the record being filled ([wrec]) and
    the rows appended but not yet written ([iobuf]). *)
Record Row := {
  wrec : gmap string Value;
  iobuf : list (gmap string Value);
}.

(** A table: its column description, the rows written to the container,
    and its row accessor. *)
Record Table := {
  description : gmap string Col;
  saved : list (gmap string Value);
  row : Row;
}.

Definition default_record (d : gmap string Col) : gmap string Value :=
  dflt <$> d.

Definition fresh_row (d : gmap string Col) : Row :=
  {| wrec := default_record d; iobuf := [] |}.

(** [len(table)], i.e. [table.nrows]: rows written so far. *)
Definition Table_len (t : Table) : nat := length (saved t).

(** [table[i]] for a non-negative integer [i]. *)
Definition Table_getitem (t : Table) (i : nat) : result (gmap string Value) :=
  match saved t !! i with
  | Some r => Ok r
  | None => Raise IndexError
  end.

(** The root group of a container of this layer: the two named nodes. *)
Record Group := {
  img_stack : option EArray;
  metadata : option Table;
}.

Definition empty_group : Group := {| img_stack := None; metadata := None |}.

(** An open (or closed) file object with its object tree. *)
Record File := {
  filename : string;
  mode : string;
  isopen : bool;
  root : Group;
}.

(** The world outside the process: the containers on disk, and PyTables'
    registry of the files currently open, one entry per handle with the
    file's name and the mode it was opened in. *)
Record World := {
  disk : gmap string Group;
  handles : list (string * string);
}.

(** The names of the files currently open, one per handle. *)
Definition open_files (w : World) : list string := (handles w).*1.

(** The modes of the handles open on a file. *)
Definition open_modes (name : string) (w : World) : list string :=
  (filter (λ h, h.1 = name) (handles w)).*2.

Definition writable (f : File) : bool :=
  negb (String.eqb (mode f) "r").

Definition set_root (f : File) (g : Group) : File :=
  {| filename := filename f; mode := mode f; isopen := isopen f; root := g |}.

Definition register (name md : string) (w : World) : World :=
  {| disk := disk w; handles := (name, md) :: handles w |}.

Definition store (name : string) (g : Group) (w : World) : World :=
  {| disk := <[name := g]> (disk w); handles := handles w |}.

(** Remove one entry of the registry. *)
Fixpoint remove_one (h : string * string) (l : list (string * string))
    : list (string * string) :=
  match l with
  | [] => []
  | x :: l' => if bool_decide (x = h) then l' else x :: remove_one h l'
  end.

Definition unregister (name md : string) (w : World) : World :=
  {| disk := disk w; handles := remove_one (name, md) (handles w) |}.

(** Whether a handle open in mode [omode] forbids opening the same file in
    mode [md]: ['r'] goes with ['r'] only, ['a'] and ['r+'] with anything
    but ['r'], and ['w'] with no open handle at all. *)
Definition refuses (md omode : string) : bool :=
  if String.eqb md "r" then negb (String.eqb omode "r")
  else if String.eqb md "a" || String.eqb md "r+" then String.eqb omode "r"
  else String.eqb md "w".

(** [tables.open_file(filename, mode)]: a file already open in this
    process in a mode that does not go with the requested one is refused;
    otherwise ['r'] and ['r+'] need an existing file, ['a'] opens or
    creates, ['w'] creates and truncates; any other mode string is
    refused. *)
Definition open_file (name md : string) (w : World) : result File * World :=
  let opened g := Ok {| filename := name; mode := md; isopen := true; root := g |} in
  if existsb (refuses md) (open_modes name w) then (Raise ValueError, w)
  else if String.eqb md "r" || String.eqb md "r+" then
    match disk w !! name with
    | Some g => (opened g, register name md w)
    | None => (Raise OSError, w)
    end
  else if String.eqb md "a" then
    match disk w !! name with
    | Some g => (opened g, register name md w)
    | None => (opened empty_group, register name md (store name empty_group w))
    end
  else if String.eqb md "w" then
    (opened empty_group, register name md (store name empty_group w))
  else (Raise ValueError, w).

(** [File.create_earray(root, 'img_stack', atom, shape)]: exactly one
    dimension of [shape] must be 0, the one that grows; the class always
    passes it first. *)
Definition create_earray (f : File) (a : Dtype) (shp : list nat) : result File :=
  if negb (isopen f) then Raise ClosedNodeError
  else if negb (writable f) then Raise FileModeError
  else match shp with
  | 0 :: items =>
      if bool_decide (0 ∈ items) then Raise NotImplementedError
      else Ok (set_root f {| img_stack := Some {| atom := a; nrows := 0;
                                                  item_shape := items; buf := [] |};
                             metadata := metadata (root f) |})
  | _ => Raise NotImplementedError
  end.

(** [File.create_table(root, 'metadata', description)]. *)
Definition create_table (f : File) (d : gmap string Col) : result File :=
  if negb (isopen f) then Raise ClosedNodeError
  else if negb (writable f) then Raise FileModeError
  else if negb (valid_description d) then Raise ValueError
  else Ok (set_root f {| img_stack := img_stack (root f);
                         metadata := Some {| description := d; saved := [];
                                             row := fresh_row d |} |}).

(** References to the two nodes of the object tree.  A Python variable
    bound to a node aliases the tree of its file: reading through the
    reference sees every update made through the file. *)
Inductive node := root_img_stack | root_metadata.

Definition get_earray (f : File) (n : node) : option EArray :=
  match n with root_img_stack => img_stack (root f) | root_metadata => None end.

Definition get_table (f : File) (n : node) : option Table :=
  match n with root_metadata => metadata (root f) | root_img_stack => None end.

Definition set_earray (f : File) (e : EArray) : File :=
  set_root f {| img_stack := Some e; metadata := metadata (root f) |}.

Definition set_table (f : File) (t : Table) : File :=
  set_root f {| img_stack := img_stack (root f); metadata := Some t |}.

(** [EArray.append(sequence)]: the node must be open and the file
    writable; the sequence is converted to the atom's dtype, its rank and
    its non-enlargeable dimensions are compared with the array's, and,
    unless it is empty, it is written after the last row. *)
Definition EArray_append (f : File) (n : node) (a : np.ndarray) : result File :=
  match get_earray f n with
  | None => Raise AttributeError
  | Some e =>
      if negb (isopen f) then Raise ClosedNodeError
      else if negb (writable f) then Raise FileModeError
      else
        let nparr := np.array a (atom e) in
        if negb (length (np.shape nparr) =? length (shape e)) then Raise ValueError
        else if negb (bool_decide (tail (np.shape nparr) = item_shape e)) then Raise ValueError
        else if 0 <? np.size nparr then
          Ok (set_earray f {| atom := atom e;
                              nrows := nrows e + hd 0 (np.shape nparr);
                              item_shape := item_shape e;
                              buf := buf e ++ np.flat nparr |})
        else Ok f
  end.

(** The [i]-th item of the array. *)
Definition item (e : EArray) (i : nat) : np.ndarray :=
  {| np.dtype := atom e;
     np.shape := item_shape e;
     np.flat := take (item_size e) (drop (i * item_size e) (buf e)) |}.

(** [EArray.__getitem__(i)] for a non-negative integer [i]. *)
Definition EArray_getitem (f : File) (n : node) (i : nat) : result np.ndarray :=
  match get_earray f n with
  | None => Raise AttributeError
  | Some e =>
      if negb (isopen f) then Raise ClosedNodeError
      else if nrows e <=? i then Raise IndexError
      else Ok (item e i)
  end.

(** [EArray.__iter__()], run to its end: the items in index order.  A
    closed node has lost its attributes. *)
Definition EArray_iter (f : File) (n : node) : result (list np.ndarray) :=
  match get_earray f n with
  | None => Raise AttributeError
  | Some e =>
      if negb (isopen f) then Raise AttributeError
      else Ok (item e <$> seq 0 (nrows e))
  end.

(** [EArray.shape]; a closed node has lost its attributes. *)
Definition EArray_shape (f : File) (n : node) : result (list nat) :=
  match get_earray f n with
  | None => Raise AttributeError
  | Some e => if negb (isopen f) then Raise AttributeError else Ok (shape e)
  end.

(** [Table.row]: the row accessor of an open table. *)
Definition Table_row (f : File) (n : node) : result node :=
  match get_table f n with
  | None => Raise AttributeError
  | Some _ => if negb (isopen f) then Raise AttributeError else Ok n
  end.

Definition set_row (t : Table) (r : Row) : Table :=
  {| description := description t; saved := saved t; row := r |}.

(** Write the buffered rows after the saved ones. *)
Definition flush_buffered_rows (t : Table) : Table :=
  {| description := description t;
     saved := saved t ++ iobuf (row t);
     row := {| wrec := wrec (row t); iobuf := [] |} |}.

(** [row[key] = value]: sets one field of the record being filled. *)
Definition Row_setitem (f : File) (n : node) (key : string) (v : Value) : result File :=
  match get_table f n with
  | None => Raise AttributeError
  | Some t =>
      if negb (writable f) then Raise OSError
      else match description t !! key with
      | None => Raise KeyError
      | Some c =>
          match coerce c v with
          | Raise e => Raise e
          | Ok v' =>
              Ok (set_table f (set_row t {| wrec := <[key := v']> (wrec (row t));
                                            iobuf := iobuf (row t) |}))
          end
      end
  end.

(** [row.append()]: the record goes to the I/O buffer, the fields return
    to their defaults, and a full buffer is written out. *)
Definition Row_append (f : File) (n : node) : result File :=
  match get_table f n with
  | None => Raise AttributeError
  | Some t =>
      if negb (writable f) then Raise OSError
      else
        let t' := set_row t {| wrec := default_record (description t);
                               iobuf := iobuf (row t) ++ [wrec (row t)] |} in
        Ok (set_table f
              (if length (iobuf (row t')) =? nrowsinbuf (description t)
               then flush_buffered_rows t' else t'))
  end.

(** [Table.flush()]. *)
Definition Table_flush (f : File) (n : node) : result File :=
  match get_table f n with
  | None => Raise AttributeError
  | Some t =>
      if negb (isopen f) then Raise ClosedNodeError
      else if writable f then Ok (set_table f (flush_buffered_rows t))
      else Ok f
  end.

(** What a closed table leaves in the container: its rows, those still
    buffered included; the row accessor does not outlive the node. *)
Definition close_table (t : Table) : Table :=
  {| description := description t;
     saved := saved t ++ iobuf (row t);
     row := fresh_row (description t) |}.

Definition close_group (g : Group) : Group :=
  {| img_stack := img_stack g; metadata := close_table <$> metadata g |}.

(** [File.close()]: nothing for a file already closed; otherwise every
    node is flushed and closed, the container is written, and the file
    leaves the registry. *)
Definition File_close (f : File) (w : World) : File * World :=
  if negb (isopen f) then (f, w)
  else
    let g := if writable f then close_group (root f) else root f in
    ({| filename := filename f; mode := mode f; isopen := false; root := g |},
     unregister (filename f) (mode f)
       (if writable f then store (filename f) g w else w)).
End tables.
End tables.

(** ** The class [ImageStack] *)

Module pyImageStack.
Section pyImageStack.
Context `{Engine}.
Import tables.

(** An instance.  [filename] and [mode] are assigned first and
    unconditionally; every other attribute is absent ([None] here) until
    [__init__] reaches its assignment, and an instance whose [__init__]
    raised keeps the attributes assigned so far.  [atom] is assigned only
    when a template image is given.  [metadata] is either absent, bound to
    Python's [None] ([Some None]) or bound to the table node. *)
Record ImageStack := {
  filename : string;
  mode : string;
  atom : option Dtype;
  _h5file : option File;
  data : option node;
  metadata : option (option node);
}.

Definition set_mode (self : ImageStack) (m : string) : ImageStack :=
  {| filename := filename self; mode := m; atom := atom self;
     _h5file := _h5file self; data := data self; metadata := metadata self |}.

Definition set_atom (self : ImageStack) (a : Dtype) : ImageStack :=
  {| filename := filename self; mode := mode self; atom := Some a;
     _h5file := _h5file self; data := data self; metadata := metadata self |}.

Definition set_h5file (self : ImageStack) (f : File) : ImageStack :=
  {| filename := filename self; mode := mode self; atom := atom self;
     _h5file := Some f; data := data self; metadata := metadata self |}.

Definition set_data (self : ImageStack) (n : node) : ImageStack :=
  {| filename := filename self; mode := mode self; atom := atom self;
     _h5file := _h5file self; data := Some n; metadata := metadata self |}.

Definition set_metadata (self : ImageStack) (m : option node) : ImageStack :=
  {| filename := filename self; mode := mode self; atom := atom self;
     _h5file := _h5file self; data := data self; metadata := Some m |}.

(** Methods run on the instance, may change it, and return or raise; what
    was changed before an exception stays changed. *)
Definition M (A : Type) : Type := ImageStack → result A * ImageStack.

Definition ret {A} (a : A) : M A := λ self, (Ok a, self).

Definition bind {A B} (m : M A) (k : A → M B) : M B := λ self,
  match m self with
  | (Ok a, self') => k a self'
  | (Raise e, self') => (Raise e, self')
  end.

Notation "'let*' x := m 'in' k" := (bind m (λ x, k))
  (at level 10, x name, m at level 100, k at level 200).

Definition raise {A} (e : exn) : M A := λ self, (Raise e, self).

(** Reading an attribute that was never assigned raises [AttributeError]. *)
Definition getattr {A} (field : ImageStack → option A) : M A := λ self,
  match field self with
  | Some a => (Ok a, self)
  | None => (Raise AttributeError, self)
  end.

Definition put_file (f : File) : M unit := λ self, (Ok (), set_h5file self f).

(** Run an engine operation on the file object and keep the updated file. *)
Definition on_file (op : File → result File) : M unit :=
  let* f := getattr _h5file in
  match op f with
  | Ok f' => put_file f'
  | Raise e => raise e
  end.

Definition read_file {A} (op : File → result A) : M A :=
  let* f := getattr _h5file in
  match op f with
  | Ok a => ret a
  | Raise e => raise e
  end.

(** The default of the parameter [mode]. *)
Definition default_mode : string := "r".

(** [ImageStack.__init__(self, filename, dummy_img, metadata_cls, mode)]:
    returns the outcome, the instance as far as it was built, and the
    world. *)
Definition __init__ (filename : string) (dummy_img : option np.ndarray)
    (metadata_cls : option (gmap string Col)) (mode : string) (w : World)
    : result unit * ImageStack * World :=
  let self := {| filename := filename; mode := mode; atom := None;
                 _h5file := None; data := None; metadata := None |} in
  let self :=
    match dummy_img with
    | Some img => set_atom (set_mode self "w") (np.dtype img)
    | None => self
    end in
  match open_file (pyImageStack.filename self) (pyImageStack.mode self) w with
  | (Raise e, w) => (Raise e, self, w)
  | (Ok f, w) =>
      let self := set_h5file self f in
      match dummy_img with
      | Some img =>
          match atom self with
          | None => (Raise AttributeError, self, w)
          | Some a =>
              match create_earray f a (0 :: np.shape img) with
              | Raise e => (Raise e, self, w)
              | Ok f =>
                  let self := set_data (set_h5file self f) root_img_stack in
                  match metadata_cls with
                  | Some cls =>
                      match create_table f cls with
                      | Raise e => (Raise e, self, w)
                      | Ok f =>
                          (Ok (), set_metadata (set_h5file self f) (Some root_metadata), w)
                      end
                  | None => (Ok (), set_metadata self None, w)
                  end
              end
          end
      | None =>
          match img_stack (root f) with
          | None => (Raise NoSuchNodeError, self, w)
          | Some _ =>
              let self := set_data self root_img_stack in
              match tables.metadata (root f) with
              | Some _ => (Ok (), set_metadata self (Some root_metadata), w)
              | None => (Ok (), set_metadata self None, w)
              end
          end
      end
  end.

(** The call [ImageStack(filename, dummy_img, metadata_cls, mode)], where
    an omitted [mode] takes its default: the instance, unless [__init__]
    raised. *)
Definition new (filename : string) (dummy_img : option np.ndarray)
    (metadata_cls : option (gmap string Col)) (mode : option string) (w : World)
    : result ImageStack * World :=
  match __init__ filename dummy_img metadata_cls (default default_mode mode) w with
  | (Ok _, self, w) => (Ok self, w)
  | (Raise e, _, w) => (Raise e, w)
  end.

(** The property [shape]. *)
Definition shape : M (list nat) :=
  let* d := getattr data in
  read_file (λ f, EArray_shape f d).

(** [has_metadata()]: [isinstance(self.metadata, tables.table.Table)]. *)
Definition has_metadata : M bool :=
  let* m := getattr metadata in
  ret (match m with Some root_metadata => true | _ => false end).

(** [_get_metadata_row()]: the table's row accessor, [self.metadata.row],
    or [None]. *)
Definition _get_metadata_row : M (option node) :=
  let* b := has_metadata in
  if b then
    let* m := getattr metadata in
    match m with
    | Some n => let* r := read_file (λ f, Table_row f n) in ret (Some r)
    | None => raise AttributeError
    end
  else (ret None : M (option node)).

(** [row[key] = value], where [row] may be [None]. *)
Definition row_setitem (row : option node) (key : string) (value : Value) : M unit :=
  match row with
  | None => raise TypeError
  | Some n => on_file (λ f, Row_setitem f n key value)
  end.

(** [row.append()], where [row] may be [None]. *)
Definition row_append (row : option node) : M unit :=
  match row with
  | None => raise AttributeError
  | Some n => on_file (λ f, Row_append f n)
  end.

(** [for (key, value) in metadata.items(): row[key] = value] *)
Fixpoint set_fields (row : option node) (items : list (string * Value)) : M unit :=
  match items with
  | [] => ret ()
  | (key, value) :: items =>
      let* _ := row_setitem row key value in
      set_fields row items
  end.

(** [add_image(img, metadata)]; the dict [metadata] is given by its items
    in iteration order. *)
Definition add_image (img : np.ndarray) (metadata : option (list (string * Value)))
    : M unit :=
  let* d := getattr data in
  let* _ := on_file (λ f, EArray_append f d (np.expand_dims img 0)) in
  match metadata with
  | Some items =>
      let* row := _get_metadata_row in
      let* _ := set_fields row items in
      row_append row
  | None => ret ()
  end.

(** [__iter__()], run to its end. *)
Definition __iter__ : M (list np.ndarray) :=
  let* d := getattr data in
  read_file (λ f, EArray_iter f d).

(** [__getitem__(item)] for a non-negative integer [item]. *)
Definition __getitem__ (item : nat) : M np.ndarray :=
  let* d := getattr data in
  read_file (λ f, EArray_getitem f d item).

(** [self.metadata._v_isopen] *)
Definition metadata_isopen : M bool :=
  read_file (λ f, Ok (isopen f)).

(** [__del__()]. *)
Definition __del__ (self : ImageStack) (w : World)
    : result unit * ImageStack * World :=
  let flushed :=
    (let* b := has_metadata in
     let* o := (if b then metadata_isopen else (ret false : M bool)) in
     if o then
       let* m := getattr metadata in
       match m with
       | Some n => on_file (λ f, Table_flush f n)
       | None => raise AttributeError
       end
     else ret ()) self in
  match flushed with
  | (Raise e, self) => (Raise e, self, w)
  | (Ok _, self) =>
      match _h5file self with
      | None => (Raise AttributeError, self, w)
      | Some f =>
          let '(f, w) := File_close f w in
          (Ok (), set_h5file self f, w)
      end
  end.
End pyImageStack.
End pyImageStack.

(** ** Runs of calls *)

Section runs.
Context `{Engine}.
Import tables pyImageStack.

(** One call [add_image(img, metadata)]. *)
Abbreviation call := (np.ndarray * option (list (string * Value)))%type.

(** A caller makes the calls one after another on the same instance,
    whatever each of them returns or raises. *)
Definition add_images (calls : list call) (self : ImageStack) : ImageStack :=
  foldl (λ self c, (add_image c.1 c.2 self).2) self calls.

(** The same, stopping nowhere and keeping the outcomes. *)
Fixpoint outcomes (calls : list call) (self : ImageStack) : list (result unit) :=
  match calls with
  | [] => []
  | c :: calls =>
      let '(r, self) := add_image c.1 c.2 self in
      r :: outcomes calls self
  end.

(** The image array and the metadata table an instance is attached to. *)
Definition image_array (self : ImageStack) : option EArray :=
  f ← _h5file self; n ← data self; get_earray f n.

Definition metadata_table (self : ImageStack) : option Table :=
  f ← _h5file self; m ← metadata self; n ← m; get_table f n.

(** [len(self.metadata)] *)
Definition metadata_len (self : ImageStack) : option nat :=
  Table_len <$> metadata_table self.

(** [self.metadata.flush()] *)
Definition flush_metadata : M unit :=
  bind (getattr metadata) (λ m,
    match m with
    | Some n => on_file (λ f, Table_flush f n)
    | None => raise AttributeError
    end).

(** The array after one more item: the image, converted to the atom's
    dtype, written after the last row. *)
Definition pushed (e : EArray) (img : np.ndarray) : EArray :=
  {| tables.atom := tables.atom e;
     nrows := nrows e + 1;
     item_shape := item_shape e;
     buf := buf e ++ np.flat (np.array img (tables.atom e)) |}.

(** An instance whose construction returned: it holds an open file, its
    [data] is the image array of that file, and its [metadata] is the
    table of that file, or [None] when the file has none. *)
Definition attached (self : ImageStack) (f : File) : Prop :=
  _h5file self = Some f ∧
  data self = Some root_img_stack ∧
  metadata self =
    Some (match tables.metadata (root f) with
          | Some _ => Some root_metadata
          | None => None
          end).

(** All rows handed to a table, written or still buffered. *)
Definition rows_of (t : Table) : list (gmap string Value) :=
  saved t ++ iobuf (row t).

(** A metadata dict fits a table description when each of its keys names
    a column and each value is stored as it is. *)
Definition fits (cls : gmap string Col) (items : list (string * Value)) : Prop :=
  NoDup items.*1 ∧
  Forall (λ kv, ∃ c, cls !! kv.1 = Some c ∧ coerce c kv.2 = Ok kv.2) items.

(** The record of a dict: its fields, and the defaults of the columns it
    leaves out. *)
Definition record_of (cls : gmap string Col) (items : list (string * Value))
    : gmap string Value :=
  list_to_map items ∪ default_record cls.
End runs.

Abbreviation call := (np.ndarray * option (list (string * Value)))%type.

(** ** Notions used to state the properties *)

Section notions.
Context `{Engine}.
Import tables pyImageStack.

Definition new_earray (img : np.ndarray) : EArray :=
  {| tables.atom := np.dtype img; nrows := 0; item_shape := np.shape img; buf := [] |}.

Definition new_table (d : gmap string Col) : Table :=
  {| description := d; saved := []; row := fresh_row d |}.

(** The file object and the instance that a construction with a template
    image yields. *)
Definition created_file (fn : string) (img : np.ndarray)
    (cls : option (gmap string Col)) : File :=
  {| tables.filename := fn; tables.mode := "w"; isopen := true;
     root := {| img_stack := Some (new_earray img);
                tables.metadata := new_table <$> cls |} |}.

Definition created_stack (fn : string) (img : np.ndarray)
    (cls : option (gmap string Col)) : ImageStack :=
  {| filename := fn; mode := "w"; atom := Some (np.dtype img);
     _h5file := Some (created_file fn img cls);
     data := Some root_img_stack;
     metadata := Some (match cls with Some _ => Some root_metadata | None => None end) |}.

(** Opening an existing container attaches to what it holds. *)
Definition opened_stack (fn md : string) (g : Group) : ImageStack :=
  {| filename := fn; mode := md; atom := None;
     _h5file := Some {| tables.filename := fn; tables.mode := md;
                        isopen := true; root := g |};
     data := Some root_img_stack;
     metadata := Some (match tables.metadata g with
                       | Some _ => Some root_metadata
                       | None => None
                       end) |}.

(** A stack created from a template image, after any run of [add_image]
    calls. *)
Definition created_from (fn : string) (img0 : np.ndarray)
    (cls : option (gmap string Col)) (self : ImageStack) : Prop :=
  ∃ mode w w0 self0 (calls : list call),
    new fn (Some img0) cls mode w = (Ok self0, w0) ∧ self = add_images calls self0.

(** The images of a run that have the item shape of the array. *)
Definition accepted (e : EArray) (calls : list call) : list np.ndarray :=
  filter (λ a, np.shape a = item_shape e) calls.*1.

(** The calls of a run, each with its metadata dict. *)
Definition with_metadata (calls : list (np.ndarray * list (string * Value)))
    : list call :=
  (λ c, (c.1, Some c.2)) <$> calls.

(** What an operation on the metadata table leaves alone: the file's
    name, mode and state, the image array, and the table's description
    (in particular whether there is a table). *)
Definition frame (f f' : File) : Prop :=
  tables.filename f' = tables.filename f ∧
  tables.mode f' = tables.mode f ∧
  isopen f' = isopen f ∧
  img_stack (root f') = img_stack (root f) ∧
  description <$> tables.metadata (root f') = description <$> tables.metadata (root f).

(** What any call of [add_image] keeps of the file. *)
Definition keeps (f f' : File) : Prop :=
  tables.filename f' = tables.filename f ∧
  tables.mode f' = tables.mode f ∧
  isopen f' = isopen f ∧
  (is_Some (img_stack (root f)) → is_Some (img_stack (root f'))) ∧
  description <$> tables.metadata (root f') = description <$> tables.metadata (root f).

(** A step that touches nothing but the metadata table. *)
Definition table_step {A} (m : M A) : Prop :=
  ∀ self f, ∃ r f', m (set_h5file self f) = (r, set_h5file self f') ∧ frame f f'.

(** An array as the container stores it: no item dimension is 0 and the
    buffer holds [nrows] items. *)
Definition EArray_wf (e : EArray) : Prop :=
  (0 ∉ item_shape e) ∧ length (buf e) = nrows e * item_size e.

(** The items of an array, in index order. *)
Definition items_of (e : EArray) : list np.ndarray :=
  item e <$> seq 0 (nrows e).

End notions.

(** ** A concrete engine for examples

    Unsigned 8- and 16-bit and signed 64-bit pixels held as integers, with
    numpy's wrap-around conversion; 32- and 64-bit integer columns filled
    with Python integers; an I/O buffer of four rows. *)

Module Demo.
Inductive dtype := uint8 | uint16 | int64.

#[export] Instance dtype_eq_dec : EqDecision dtype.
Proof. solve_decision. Defined.

Definition wrap (d : dtype) (z : Z) : Z :=
  match d with
  | uint8 => z `mod` 2 ^ 8
  | uint16 => z `mod` 2 ^ 16
  | int64 => (z + 2 ^ 63) `mod` 2 ^ 64 - 2 ^ 63
  end%Z.

Inductive col := Int32Col | Int64Col.

Inductive value := VInt (z : Z).

(** The bits of an integer column. *)
Definition bits (c : col) : Z :=
  match c with Int32Col => 32 | Int64Col => 64 end.

(** An integer is stored as it is when it fits the column; numpy refuses
    it otherwise. *)
Definition store_value (c : col) (v : value) : result value :=
  match v with
  | VInt z =>
      if bool_decide (- 2 ^ (bits c - 1) ≤ z < 2 ^ (bits c - 1))%Z then Ok (VInt z)
      else Raise OverflowError
  end.

#[export] Instance engine : Engine := {|
  Dtype := dtype;
  Pixel := Z;
  astype := λ _ to z, wrap to z;
  Col := col;
  Value := value;
  dflt := λ _, VInt 0;
  coerce := store_value;
  valid_description := λ d, bool_decide (d ≠ ∅);
  nrowsinbuf := λ _, 4;
|}.

Definition world0 : tables.World := {| tables.disk := ∅; tables.handles := [] |}.

(** 2x2 images. *)
Definition img (d : dtype) (a b c e : Z) : np.ndarray :=
  {| np.dtype := d; np.shape := [2; 2]; np.flat := [a; b; c; e] |}.

(** A 10x10 and a 5x5 image of zeros. *)
Definition zeros (n : nat) : np.ndarray :=
  {| np.dtype := uint8; np.shape := [n; n]; np.flat := replicate (n * n) 0%Z |}.

Definition schema : gmap string col := {[ "count" := Int32Col ]}.

(** A container without the image array, as [open_file(name, 'w')]
    followed by [close()] leaves it. *)
Definition world_empty_file : tables.World :=
  {| tables.disk := {[ "empty.h5" := tables.empty_group ]}; tables.handles := [] |}.

(** A container written without a metadata schema, holding one image. *)
Definition world_plain_file : tables.World :=
  {| tables.disk :=
       {[ "plain.h5" :=
            {| tables.img_stack :=
                 Some {| tables.atom := uint8; tables.nrows := 1;
                         tables.item_shape := [2; 2]; tables.buf := [1; 2; 3; 4]%Z |};
               tables.metadata := None |} ]};
     tables.handles := [] |}.

Import tables pyImageStack.

(** A stack of 2x2 [uint8] images without a metadata schema, newly
    created. *)
Definition plain : ImageStack := created_stack "a.h5" (img uint8 0 0 0 0) None.

(** The same with the schema [{count: Int32Col()}]. *)
Definition annotated : ImageStack :=
  created_stack "a.h5" (img uint8 0 0 0 0) (Some schema).

Definition world1 : World := register "a.h5" "w" (store "a.h5" empty_group world0).

(** The scenario of the specification: a 5x5 image on a new stack of
    10x10 images. *)
Definition stack10 : ImageStack := created_stack "b.h5" (zeros 10) None.

Definition three_calls : list (np.ndarray * list (string * value)) :=
  [(img uint8 1 2 3 4, [("count", VInt 10)]);
   (img uint8 5 6 7 8, [("count", VInt 20)]);
   (img uint8 9 9 9 9, [("count", VInt 30)])].

(** A schema with two columns, and two calls that each leave one out. *)
Definition schema2 : gmap string col :=
  {[ "count" := Int32Col; "gain" := Int64Col ]}.

Definition labelled : ImageStack :=
  created_stack "c.h5" (img uint8 0 0 0 0) (Some schema2).

Definition two_calls : list (np.ndarray * list (string * value)) :=
  [(img uint8 1 2 3 4, [("count", VInt 10)]);
   (img uint8 5 6 7 8, [("gain", VInt 3)])].

(** Three calls of which the second has another shape and the third
    another dtype. *)
Definition mixed_calls : list (np.ndarray * option (list (string * value))) :=
  [(img uint8 1 2 3 4, None); (zeros 5, None); (img uint16 1 2 3 400, None)].

(** The stack found in ["plain.h5"], opened read-only and for appending. *)
Definition plain_array : EArray :=
  {| tables.atom := uint8; nrows := 1; item_shape := [2; 2]; buf := [1; 2; 3; 4]%Z |}.

Definition plain_group : Group :=
  {| img_stack := Some plain_array; tables.metadata := None |}.

Definition plain_read : ImageStack := opened_stack "plain.h5" "r" plain_group.
End Demo.

(** * Properties *)

Section engine_facts.
Context `{Engine}.
Import tables.

Lemma prod_pos (l : list nat) : 0 ∉ l → 0 < foldr Nat.mul 1 l.
Proof.
  induction l as [|x l IH]; simpl; [lia|].
  intros Hx. apply not_elem_of_cons in Hx as [Hx Hl].
  specialize (IH Hl). nia.
Qed.

Lemma array_shape (a : np.ndarray) (d : Dtype) :
  np.shape (np.array a d) = np.shape a.
Proof. unfold np.array. by destruct (decide _). Qed.

Lemma array_same_dtype (a : np.ndarray) : np.array a (np.dtype a) = a.
Proof. unfold np.array. by destruct (decide _). Qed.

Lemma array_flat_length (a : np.ndarray) (d : Dtype) :
  length (np.flat (np.array a d)) = length (np.flat a).
Proof. unfold np.array. destruct (decide _); simpl; [done|]. by rewrite length_fmap. Qed.

Lemma array_expand_dims (a : np.ndarray) (d : Dtype) :
  np.array (np.expand_dims a 0) d = np.expand_dims (np.array a d) 0.
Proof. unfold np.array, np.expand_dims. simpl. by destruct (decide _). Qed.

(** An image of the array's item shape is appended as one more row. *)
Lemma EArray_append_item (f : File) (e : EArray) (a : np.ndarray) :
  img_stack (root f) = Some e → isopen f = true → writable f = true →
  np.shape a = item_shape e → 0 ∉ item_shape e →
  EArray_append f root_img_stack (np.expand_dims a 0) = Ok (set_earray f (pushed e a)).
Proof.
  intros He Ho Hw Hs H0. unfold EArray_append. simpl. rewrite He, Ho, Hw. simpl.
  rewrite array_expand_dims. simpl. rewrite drop_0, array_shape, Hs.
  rewrite Nat.eqb_refl. simpl. rewrite bool_decide_eq_true_2 by done. simpl.
  assert (0 < np.size (np.expand_dims (np.array a (atom e)) 0)) as Hpos.
  { unfold np.size. simpl. rewrite drop_0, array_shape, Hs.
    pose proof (prod_pos _ H0). lia. }
  apply Nat.ltb_lt in Hpos. rewrite Hpos. done.
Qed.

(** An image of any other shape is refused, whatever its dtype. *)
Lemma EArray_append_mismatch (f : File) (e : EArray) (a : np.ndarray) :
  img_stack (root f) = Some e → isopen f = true → writable f = true →
  np.shape a ≠ item_shape e →
  EArray_append f root_img_stack (np.expand_dims a 0) = Raise ValueError.
Proof.
  intros He Ho Hw Hs. unfold EArray_append. simpl. rewrite He, Ho, Hw. simpl.
  rewrite array_expand_dims. simpl. rewrite array_shape.
  rewrite drop_0.
  destruct (length (np.shape a) =? length (item_shape e)); simpl; [|done].
  by rewrite bool_decide_eq_false_2.
Qed.
End engine_facts.

Section stack_facts.
Context `{Engine}.
Import tables pyImageStack.

Lemma frame_refl f : frame f f.
Proof. by repeat split. Qed.

Lemma frame_trans f1 f2 f3 : frame f1 f2 → frame f2 f3 → frame f1 f3.
Proof.
  intros (?&?&?&?&?) (?&?&?&?&?). repeat split; etrans; eauto.
Qed.

Lemma frame_writable f f' : frame f f' → writable f' = writable f.
Proof. intros (_&Hm&_). unfold writable. by rewrite Hm. Qed.

Lemma writable_set_table f t : writable (set_table f t) = writable f.
Proof. done. Qed.

Lemma writable_set_earray f e : writable (set_earray f e) = writable f.
Proof. done. Qed.

Lemma set_table_frame f t t' :
  tables.metadata (root f) = Some t → description t' = description t →
  frame f (set_table f t').
Proof. intros Ht Hd. repeat split; simpl. by rewrite Ht, Hd. Qed.

Lemma Row_setitem_frame f n key v f' :
  Row_setitem f n key v = Ok f' → frame f f'.
Proof.
  unfold Row_setitem. destruct (get_table f n) as [t|] eqn:Ht; [|done].
  destruct n; simpl in Ht; [done|].
  destruct (negb (writable f)); [done|].
  destruct (description t !! key); [|done].
  destruct (coerce _ _); [|done].
  intros [= <-]. by apply (set_table_frame _ t).
Qed.

Lemma Row_append_frame f n f' : Row_append f n = Ok f' → frame f f'.
Proof.
  unfold Row_append. destruct (get_table f n) as [t|] eqn:Ht; [|done].
  destruct n; simpl in Ht; [done|].
  destruct (negb (writable f)); [done|].
  intros [= <-]. apply (set_table_frame _ t); [done|].
  by destruct (_ =? _).
Qed.

(** Methods reach the file only through [_h5file]; the lemmas below run
    them on an instance whose file is given. *)
Lemma set_h5file_id self f : _h5file self = Some f → set_h5file self f = self.
Proof. destruct self; simpl. by intros ->. Qed.

Lemma on_file_run op self f :
  on_file op (set_h5file self f) =
  match op f with
  | Ok f' => (Ok (), set_h5file self f')
  | Raise e => (Raise e, set_h5file self f)
  end.
Proof. unfold on_file, bind, getattr. simpl. by destruct (op f). Qed.

Lemma read_file_run {A} (op : File → result A) self f :
  read_file op (set_h5file self f) = (op f, set_h5file self f).
Proof. unfold read_file, bind, getattr. simpl. by destruct (op f). Qed.

Lemma row_setitem_step row key v : table_step (row_setitem row key v).
Proof.
  intros self f. destruct row as [n|]; simpl.
  - rewrite on_file_run. destruct (Row_setitem f n key v) as [f'|e] eqn:E.
    + exists (Ok ()), f'. eauto using Row_setitem_frame.
    + exists (Raise e), f. eauto using frame_refl.
  - exists (Raise TypeError), f. eauto using frame_refl.
Qed.

Lemma row_append_step row : table_step (row_append row).
Proof.
  intros self f. destruct row as [n|]; simpl.
  - rewrite on_file_run. destruct (Row_append f n) as [f'|e] eqn:E.
    + exists (Ok ()), f'. eauto using Row_append_frame.
    + exists (Raise e), f. eauto using frame_refl.
  - exists (Raise AttributeError), f. eauto using frame_refl.
Qed.

Lemma bind_step {A B} (m : M A) (k : A → M B) :
  table_step m → (∀ a, table_step (k a)) → table_step (bind m k).
Proof.
  intros Hm Hk self f. unfold bind.
  destruct (Hm self f) as (r & f1 & -> & Hf1). destruct r as [a|e].
  - destruct (Hk a self f1) as (r & f2 & -> & Hf2).
    exists r, f2. eauto using frame_trans.
  - by exists (Raise e), f1.
Qed.

Lemma ret_step {A} (a : A) : table_step (ret a).
Proof. intros self f. exists (Ok a), f. eauto using frame_refl. Qed.

Lemma set_fields_step row items : table_step (set_fields row items).
Proof.
  induction items as [|[key v] items IH]; simpl.
  - apply ret_step.
  - apply bind_step; [apply row_setitem_step | done].
Qed.

Lemma _get_metadata_row_pure self : (_get_metadata_row self).2 = self.
Proof.
  unfold _get_metadata_row, has_metadata, read_file, bind, getattr, ret, raise.
  destruct (metadata self) as [[[]|]|] eqn:E; simpl; rewrite ?E; try done.
  destruct (_h5file self); [|done]. by destruct (Table_row _ _).
Qed.

Lemma _get_metadata_row_run self f :
  _get_metadata_row (set_h5file self f) =
  match metadata self with
  | Some (Some root_metadata) =>
      (match Table_row f root_metadata with
       | Ok r => Ok (Some r)
       | Raise e => Raise e
       end, set_h5file self f)
  | Some _ => (Ok None, set_h5file self f)
  | None => (Raise AttributeError, set_h5file self f)
  end.
Proof.
  unfold _get_metadata_row, has_metadata, read_file.
  unfold bind, getattr, ret, raise. simpl.
  destruct (metadata self) as [[[]|]|] eqn:E; simpl; rewrite ?E; try done.
  change (_h5file (set_h5file self f)) with (Some f). cbv beta iota.
  by destruct (Table_row _ _).
Qed.

Lemma Table_row_open f t :
  tables.metadata (root f) = Some t → isopen f = true →
  Table_row f root_metadata = Ok root_metadata.
Proof. intros Ht Ho. unfold Table_row. simpl. by rewrite Ht, Ho. Qed.

Lemma _get_metadata_row_step : table_step _get_metadata_row.
Proof.
  intros self f. exists (_get_metadata_row (set_h5file self f)).1, f.
  split; [|apply frame_refl].
  rewrite <- (_get_metadata_row_pure (set_h5file self f)) at 3.
  by destruct (_get_metadata_row _).
Qed.

(** [add_image] on an instance bound to the image array: first the
    append, then, with a metadata dict, the row. *)
Lemma add_image_run img md self f :
  data self = Some root_img_stack →
  add_image img md (set_h5file self f) =
  match EArray_append f root_img_stack (np.expand_dims img 0) with
  | Raise e => (Raise e, set_h5file self f)
  | Ok f1 =>
      match md with
      | None => (Ok (), set_h5file self f1)
      | Some items =>
          bind _get_metadata_row (λ row,
            bind (set_fields row items) (λ _, row_append row)) (set_h5file self f1)
      end
  end.
Proof.
  intros Hd. unfold add_image. unfold bind at 1. unfold getattr at 1. simpl.
  rewrite Hd. unfold bind at 1. rewrite on_file_run.
  destruct (EArray_append _ _ _); [|done]. by destruct md.
Qed.
End stack_facts.

Section append_facts.
Context `{Engine}.
Import tables pyImageStack.

Lemma pushed_all_fields (e : EArray) (imgs : list np.ndarray) :
  tables.atom (foldl pushed e imgs) = tables.atom e ∧
  item_shape (foldl pushed e imgs) = item_shape e ∧
  nrows (foldl pushed e imgs) = nrows e + length imgs ∧
  buf (foldl pushed e imgs) =
    buf e ++ concat ((λ a, np.flat (np.array a (tables.atom e))) <$> imgs).
Proof.
  revert e. induction imgs as [|a imgs IH]; intros e; simpl.
  - rewrite app_nil_r. repeat split; lia.
  - destruct (IH (pushed e a)) as (-> & -> & -> & ->). simpl.
    rewrite <- app_assoc. repeat split; lia.
Qed.

(** Rows of equal length written one after another are read back by
    position. *)
Lemma take_drop_concat {A} (sz : nat) (l : list (list A)) (i : nat) (x : list A) :
  Forall (λ y, length y = sz) l → l !! i = Some x →
  take sz (drop (i * sz) (concat l)) = x.
Proof.
  intros Hl. revert i. induction Hl as [|y l Hy Hl IH]; intros i Hi; [done|].
  destruct i as [|i]; simpl in *.
  - injection Hi as ->. rewrite drop_0. by apply take_app_length'.
  - replace (sz + i * sz) with (length y + i * sz) by (by rewrite Hy).
    rewrite drop_app_add. by apply IH.
Qed.

Lemma add_image_mismatch img md self f e :
  data self = Some root_img_stack →
  img_stack (root f) = Some e → isopen f = true → writable f = true →
  np.shape img ≠ item_shape e →
  add_image img md (set_h5file self f) = (Raise ValueError, set_h5file self f).
Proof.
  intros Hd He Ho Hw Hs. rewrite add_image_run by done.
  by rewrite (EArray_append_mismatch f e).
Qed.

(** A call with an image of the item shape appends it; whatever follows
    for the metadata stays within the table. *)
Lemma add_image_appends img md self f e :
  data self = Some root_img_stack →
  img_stack (root f) = Some e → isopen f = true → writable f = true →
  np.shape img = item_shape e → 0 ∉ item_shape e →
  ∃ r f', add_image img md (set_h5file self f) = (r, set_h5file self f') ∧
          frame (set_earray f (pushed e img)) f' ∧
          (md = None → r = Ok () ∧ f' = set_earray f (pushed e img)).
Proof.
  intros Hd He Ho Hw Hs H0. rewrite add_image_run by done.
  rewrite (EArray_append_item f e) by done.
  destruct md as [items|].
  - destruct (bind_step _get_metadata_row
                (λ row, bind (set_fields row items) (λ _, row_append row))
                _get_metadata_row_step
                (λ row, bind_step _ _ (set_fields_step row items)
                          (λ _, row_append_step row))
                self (set_earray f (pushed e img))) as (r & f' & -> & Hf).
    exists r, f'. split; [done|]. split; [done|]. by intros [=].
  - exists (Ok ()), (set_earray f (pushed e img)). eauto using frame_refl.
Qed.

(** Without a table the metadata phase fails at its first use of the
    row, which is [None]. *)
Lemma add_image_no_table img items self f e :
  data self = Some root_img_stack → metadata self = Some None →
  img_stack (root f) = Some e → isopen f = true → writable f = true →
  np.shape img = item_shape e → 0 ∉ item_shape e →
  add_image img (Some items) (set_h5file self f) =
  (Raise (match items with [] => AttributeError | _ => TypeError end),
   set_h5file self (set_earray f (pushed e img))).
Proof.
  intros Hd Hm He Ho Hw Hs H0. rewrite add_image_run by done.
  rewrite (EArray_append_item f e) by done.
  unfold bind at 1. rewrite _get_metadata_row_run, Hm.
  by destruct items as [|[??]?].
Qed.

Lemma foldl_insert_record (items : list (string * Value)) (m : gmap string Value) :
  NoDup items.*1 →
  foldl (λ r kv, <[kv.1 := kv.2]> r) m items = list_to_map items ∪ m.
Proof.
  revert m. induction items as [|[k v] items IH]; intros m Hnd; simpl.
  - by rewrite (left_id_L ∅ (∪)).
  - apply NoDup_cons in Hnd as [Hk Hnd]. rewrite IH by done.
    rewrite <- insert_union_l. rewrite insert_union_r; [done|].
    by apply not_elem_of_list_to_map_1.
Qed.

Lemma set_table_id f t : tables.metadata (root f) = Some t → set_table f t = f.
Proof. destruct f as [? ? ? []]; simpl. by intros ->. Qed.

Lemma set_fields_fits items : ∀ self f t,
  tables.metadata (root f) = Some t → writable f = true →
  Forall (λ kv, ∃ c, description t !! kv.1 = Some c ∧ coerce c kv.2 = Ok kv.2) items →
  set_fields (Some root_metadata) items (set_h5file self f) =
  (Ok (), set_h5file self
            (set_table f (set_row t {| wrec := foldl (λ r kv, <[kv.1 := kv.2]> r)
                                                     (wrec (row t)) items;
                                       iobuf := iobuf (row t) |}))).
Proof.
  induction items as [|[k v] items IH]; intros self f t Ht Hw Hfit; simpl.
  - unfold ret. do 2 f_equal. symmetry.
    destruct t as [? ? []]; simpl. by apply set_table_id.
  - apply Forall_cons in Hfit as [(c & Hc & Hv) Hfit]. simpl in *.
    unfold bind at 1. rewrite on_file_run.
    unfold Row_setitem. simpl. rewrite Ht, Hw, Hc, Hv. simpl.
    rewrite (IH _ _ (set_row t {| wrec := <[k:=v]> (wrec (row t));
                                  iobuf := iobuf (row t) |})); done.
Qed.
End append_facts.

Section run_facts.
Context `{Engine}.
Import tables pyImageStack.

Lemma accepted_all (e : EArray) (calls : list call) :
  Forall (λ c : call, np.shape c.1 = item_shape e) calls →
  accepted e calls = calls.*1.
Proof.
  unfold accepted. induction 1 as [|c calls Hc _ IH]; [done|].
  rewrite fmap_cons, filter_cons_True by done. by rewrite IH.
Qed.

Lemma add_images_cons (c : call) calls self :
  add_images (c :: calls) self = add_images calls (add_image c.1 c.2 self).2.
Proof. done. Qed.

Lemma frame_set_earray f f1 f' a b :
  frame (set_earray f a) f1 → frame (set_earray f1 b) f' →
  frame (set_earray f b) f'.
Proof.
  intros (?&?&?&?&?) (?&?&?&?&?). simpl in *.
  repeat split; simpl; try congruence.
Qed.

(** A run of calls on a writable stack appends exactly the images of the
    item shape, in order, and leaves the rest of the file as it was, but
    for the rows of the metadata table. *)
Lemma add_images_run calls : ∀ self f e,
  data self = Some root_img_stack →
  img_stack (root f) = Some e → isopen f = true → writable f = true →
  0 ∉ item_shape e →
  ∃ f', add_images calls (set_h5file self f) = set_h5file self f' ∧
        frame (set_earray f (foldl pushed e (accepted e calls))) f'.
Proof.
  induction calls as [|[img md] calls IH]; intros self f e Hd He Ho Hw H0.
  - exists f. split; [done|]. unfold accepted. simpl.
    destruct f as [? ? ? [? ?]]; simpl in *. subst. apply frame_refl.
  - rewrite add_images_cons. simpl.
    destruct (decide (np.shape img = item_shape e)) as [Hs|Hs].
    + destruct (add_image_appends img md self f e) as (r & f1 & -> & Hf1 & _);
        try done.
      simpl. pose proof Hf1 as (_ & _ & Ho1 & He1 & _). simpl in Ho1, He1.
      destruct (IH self f1 (pushed e img)) as (f' & -> & Hf'); try done.
      * congruence.
      * by rewrite (frame_writable _ _ Hf1).
      * exists f'. split; [done|]. unfold accepted in *. simpl in *.
        rewrite filter_cons_True by done. simpl.
        by eapply frame_set_earray.
    + rewrite (add_image_mismatch img md self f e) by done. simpl.
      destruct (IH self f e) as (f' & -> & Hf'); try done.
      exists f'. split; [done|]. unfold accepted in *. simpl.
      by rewrite filter_cons_False.
Qed.
End run_facts.

Section lifecycle_facts.
Context `{Engine}.
Import tables pyImageStack.

Lemma open_modes_nil fn w : fn ∉ open_files w → open_modes fn w = [].
Proof.
  unfold open_files, open_modes. induction (handles w) as [|[n m] l IH]; [done|].
  rewrite fmap_cons, not_elem_of_cons. simpl. intros [Hn Hl].
  rewrite filter_cons_False by (simpl; congruence). by apply IH.
Qed.

Lemma open_modes_register fn md w :
  open_modes fn (register fn md w) = md :: open_modes fn w.
Proof. unfold open_modes. simpl. by rewrite filter_cons_True. Qed.

Lemma refuses_w_all l : existsb (refuses "w") l = false → l = [].
Proof. by destruct l. Qed.

Lemma open_modes_elem fn w : fn ∈ open_files w → open_modes fn w ≠ [].
Proof.
  unfold open_files, open_modes. induction (handles w) as [|[n m] l IH]; simpl.
  - by intros ?%not_elem_of_nil.
  - intros [->|Hin]%elem_of_cons.
    + by rewrite filter_cons_True.
    + destruct (decide (n = fn)) as [->|Hn].
      * by rewrite filter_cons_True.
      * rewrite filter_cons_False by done. by apply IH.
Qed.

(** Mode ['w'] is refused exactly when the file is open in this process. *)
Lemma refuses_w_open fn w :
  existsb (refuses "w") (open_modes fn w) = bool_decide (fn ∈ open_files w).
Proof.
  case_bool_decide as Hin.
  - apply open_modes_elem in Hin. by destruct (open_modes fn w).
  - by rewrite open_modes_nil.
Qed.

Lemma init_create fn img cls md w :
  __init__ fn (Some img) cls md w =
  (let w' := register fn "w" (store fn empty_group w) in
   let opened := {| tables.filename := fn; tables.mode := "w"; isopen := true;
                    root := empty_group |} in
   let self0 := {| filename := fn; mode := "w"; atom := Some (np.dtype img);
                   _h5file := None; data := None; metadata := None |} in
   let self := set_h5file self0 opened in
   if existsb (refuses "w") (open_modes fn w) then (Raise ValueError, self0, w)
   else if bool_decide (0 ∈ np.shape img) then (Raise NotImplementedError, self, w')
   else match cls with
        | Some d =>
            if valid_description d then (Ok (), created_stack fn img cls, w')
            else (Raise ValueError,
                  set_data (set_h5file self (created_file fn img None)) root_img_stack, w')
        | None => (Ok (), created_stack fn img cls, w')
        end).
Proof.
  unfold __init__, open_file, create_earray, create_table. simpl.
  destruct (existsb _ _); [done|]. simpl.
  case_bool_decide; [done|]. simpl.
  destruct cls as [d|]; [|done]. simpl.
  by destruct (valid_description d).
Qed.

Lemma new_create fn img cls md w self w' :
  new fn (Some img) cls md w = (Ok self, w') →
  (0 ∉ np.shape img) ∧ self = created_stack fn img cls ∧
  w' = register fn "w" (store fn empty_group w).
Proof.
  unfold new. rewrite init_create. simpl.
  destruct (existsb _ _); [done|].
  case_bool_decide; [done|].
  destruct cls as [d|]; [destruct (valid_description d)|]; simpl; intros [= <- <-]; done.
Qed.

(** A construction with a template returns only if no handle is open on
    the file. *)
Lemma new_create_free fn img cls md w self w' :
  new fn (Some img) cls md w = (Ok self, w') → open_modes fn w = [].
Proof.
  unfold new. rewrite init_create. simpl.
  destruct (existsb _ _) eqn:Hex; [done|]. intros _. by apply refuses_w_all.
Qed.

Lemma init_open fn cls md w g e :
  md = "r" ∨ md = "r+" ∨ md = "a" →
  existsb (refuses md) (open_modes fn w) = false →
  disk w !! fn = Some g → img_stack g = Some e →
  __init__ fn None cls md w = (Ok (), opened_stack fn md g, register fn md w).
Proof.
  intros Hmd Hfree Hg He. unfold __init__, open_file. simpl. rewrite Hfree.
  destruct Hmd as [->|[->| ->]]; simpl; rewrite Hg; simpl; rewrite He;
    unfold opened_stack; by destruct (tables.metadata g).
Qed.

Lemma remove_one_head h l : remove_one h (h :: l) = l.
Proof. simpl. by rewrite bool_decide_eq_true_2. Qed.

Lemma unregister_store fn md name g w :
  unregister fn md (store name g (register fn md w)) = store name g w.
Proof. unfold unregister, store, register. simpl. by rewrite bool_decide_eq_true_2. Qed.

(** Teardown of an instance attached to an open file: the table, if any,
    is flushed, the file is closed, and a writable container is written
    with every row handed to the table. *)
Lemma del_attached self f w :
  attached self f → isopen f = true →
  __del__ self w =
  (Ok (),
   set_h5file self {| tables.filename := tables.filename f; tables.mode := tables.mode f;
                      isopen := false;
                      root := if writable f then close_group (root f) else root f |},
   unregister (tables.filename f) (tables.mode f)
     (if writable f then store (tables.filename f) (close_group (root f)) w else w)).
Proof.
  intros (Hf & Hd & Hm) Ho.
  destruct self as [fn md at_ hf d m]. simpl in *. subst.
  unfold __del__, has_metadata, metadata_isopen, read_file, on_file, put_file,
    bind, getattr, ret, raise. simpl.
  destruct (tables.metadata (root f)) as [t|] eqn:Ht; simpl.
  - rewrite Ho. unfold Table_flush. simpl. rewrite Ht, Ho. simpl.
    unfold File_close.
    destruct (writable f) eqn:Hw; simpl; rewrite Ho; simpl.
    + unfold writable in *. simpl. rewrite Hw.
      unfold close_group, close_table, set_h5file. simpl. rewrite Ht. simpl.
      by rewrite app_nil_r.
    + by rewrite Hw.
  - unfold File_close. rewrite Ho. simpl. by destruct (writable f).
Qed.
End lifecycle_facts.

Section read_facts.
Context `{Engine}.
Import tables pyImageStack.

Lemma shape_attached self f e :
  attached self f → isopen f = true → img_stack (root f) = Some e →
  shape self = (Ok (nrows e :: item_shape e), self).
Proof.
  intros (Hf & Hd & _) Ho He. rewrite <- (set_h5file_id self f Hf).
  unfold shape, bind, getattr. simpl. rewrite Hd, read_file_run.
  unfold EArray_shape. simpl. by rewrite He, Ho.
Qed.

Lemma getitem_attached self f e i :
  attached self f → isopen f = true → img_stack (root f) = Some e →
  i < nrows e →
  __getitem__ i self = (Ok (item e i), self).
Proof.
  intros (Hf & Hd & _) Ho He Hi. rewrite <- (set_h5file_id self f Hf).
  unfold __getitem__, bind, getattr. simpl. rewrite Hd, read_file_run.
  unfold EArray_getitem. simpl. rewrite He, Ho. simpl.
  by rewrite (proj2 (Nat.leb_gt _ _) Hi).
Qed.

Lemma has_metadata_attached self f :
  attached self f →
  has_metadata self = (Ok (bool_decide (is_Some (tables.metadata (root f)))), self).
Proof.
  intros (_ & _ & Hm). unfold has_metadata, bind, getattr, ret. rewrite Hm.
  by destruct (tables.metadata (root f)).
Qed.

Lemma opened_attached fn md g :
  attached (opened_stack fn md g)
    {| tables.filename := fn; tables.mode := md; isopen := true; root := g |}.
Proof. done. Qed.

(** Reading back the [i]-th of a sequence of images of the item shape
    written one after another: the image, in the array's dtype. *)
Lemma item_pushed (e : EArray) (imgs : list np.ndarray) (i : nat) (a : np.ndarray) :
  buf e = [] →
  Forall (λ a, np.shape a = item_shape e ∧ np.wf a) imgs →
  imgs !! i = Some a →
  item (foldl pushed e imgs) i = np.array a (tables.atom e).
Proof.
  intros Hb Himgs Hi.
  destruct (pushed_all_fields e imgs) as (Ha & Hs & _ & Hbuf).
  unfold item, item_size. rewrite Ha, Hs, Hbuf, Hb. simpl.
  rewrite Forall_lookup in Himgs. destruct (Himgs _ _ Hi) as (Hsa & Hwa).
  rewrite (take_drop_concat _ _ i (np.flat (np.array a (tables.atom e)))).
  - unfold np.array. destruct (decide _) as [Hd|Hd]; simpl; [|by rewrite Hsa].
    destruct a; simpl in *. by subst.
  - apply Forall_fmap, Forall_lookup. intros j b Hj. simpl.
    destruct (Himgs _ _ Hj) as (Hsb & Hwb).
    rewrite array_flat_length. unfold np.wf, np.size in Hwb. by rewrite Hwb, Hsb.
  - by rewrite list_lookup_fmap, Hi.
Qed.
End read_facts.

(** ** Round trip *)

Section round_trip.
Context `{Engine}.
Import tables pyImageStack.

(** C1.  Images of the template's shape and dtype are appended with
    [add_image] to a newly created stack, created with or without a
    metadata schema and whatever metadata the calls pass; the stack is
    torn down and the same file reopened read-only.  The reopened stack
    has shape [(N, *item_shape)], [has_metadata()] tells whether a schema
    was given, and index [i] returns the [i]-th appended image. *)
Theorem roundtrip fn img0 cls mode w self0 w0 (calls : list call) :
  new fn (Some img0) cls mode w = (Ok self0, w0) →
  Forall (λ c : call, np.dtype c.1 = np.dtype img0 ∧
                      np.shape c.1 = np.shape img0 ∧ np.wf c.1) calls →
  ∃ self1 w1 self2 w2,
    __del__ (add_images calls self0) w0 = (Ok (), self1, w1) ∧
    new fn None None None w1 = (Ok self2, w2) ∧
    shape self2 = (Ok (length calls :: np.shape img0), self2) ∧
    has_metadata self2 = (Ok (bool_decide (is_Some cls)), self2) ∧
    ∀ i c, calls !! i = Some c → __getitem__ i self2 = (Ok c.1, self2).
Proof.
  intros Hnew Hcalls. pose proof (new_create_free _ _ _ _ _ _ _ Hnew) as Hfree.
  apply new_create in Hnew as (H0 & -> & ->).
  set (self0 := created_stack fn img0 cls).
  set (f0 := created_file fn img0 cls).
  destruct (add_images_run calls self0 f0 (new_earray img0))
    as (f' & Hrun & Hf'); try done.
  change (set_h5file self0 f0) with self0 in Hrun.
  rewrite accepted_all in Hf' by (eapply Forall_impl; [done|]; by intros ? (?&?&?)).
  set (e' := foldl pushed (new_earray img0) calls.*1) in *.
  destruct Hf' as (Hfn & Hmd & Ho & He & Hdesc). simpl in Hfn, Hmd, Ho, He, Hdesc.
  assert (is_Some (tables.metadata (root f')) ↔ is_Some cls) as Htab.
  { rewrite <- !fmap_is_Some with (f := description) at 1. rewrite Hdesc.
    by rewrite !fmap_is_Some. }
  assert (attached (set_h5file self0 f') f') as Hatt.
  { repeat split. simpl.
    destruct (tables.metadata (root f')), cls; done. }
  assert (writable f' = true) as Hw by (unfold writable; by rewrite Hmd).
  set (g := close_group (root f')).
  assert (img_stack g = Some e') as Hg by done.
  eexists _, _, (opened_stack fn "r" g), _. split.
  { rewrite Hrun, (del_attached _ f') by done.
    rewrite Hw, Hfn, Hmd, unregister_store. done. }
  split.
  { unfold new. simpl.
    rewrite (init_open fn None "r" _ g e'); [done|by left| | |done].
    - unfold open_modes. simpl. fold (open_modes fn w). by rewrite Hfree.
    - simpl. apply lookup_insert_eq. }
  pose proof (opened_attached fn "r" g) as Hatt2.
  destruct (pushed_all_fields (new_earray img0) calls.*1) as (Ha & Hs & Hn & _).
  fold e' in Ha, Hs, Hn. simpl in Ha, Hs, Hn. rewrite length_fmap in Hn.
  split; [|split].
  - rewrite (shape_attached _ _ e' Hatt2) by done. by rewrite Hn, Hs.
  - rewrite (has_metadata_attached _ _ Hatt2). simpl.
    do 2 f_equal. apply bool_decide_ext.
    unfold g. simpl. by rewrite fmap_is_Some.
  - intros i c Hi.
    rewrite (getitem_attached _ _ e' i Hatt2) by
      (try done; rewrite Hn; by apply lookup_lt_Some in Hi).
    do 2 f_equal. rewrite Forall_lookup in Hcalls.
    destruct (Hcalls _ _ Hi) as (Hdc & _).
    trans (np.array c.1 (np.dtype img0)); [|by rewrite <- Hdc, array_same_dtype].
    apply (item_pushed (new_earray img0)); [done| |].
    + apply Forall_fmap, Forall_lookup. intros j b Hj.
      by destruct (Hcalls _ _ Hj) as (?&?&?).
    + by rewrite list_lookup_fmap, Hi.
Qed.
End round_trip.

Section row_facts.
Context `{Engine}.
Import tables pyImageStack.

(** One call with a fitting metadata dict on a stack with a table: the
    image is appended and one row, the record of the dict, is handed to
    the table. *)
Lemma add_image_row img items self f e t :
  data self = Some root_img_stack → metadata self = Some (Some root_metadata) →
  img_stack (root f) = Some e → tables.metadata (root f) = Some t →
  isopen f = true → writable f = true →
  np.shape img = item_shape e → 0 ∉ item_shape e →
  wrec (row t) = default_record (description t) →
  fits (description t) items →
  ∃ t', add_image img (Some items) (set_h5file self f) =
          (Ok (), set_h5file self (set_table (set_earray f (pushed e img)) t')) ∧
        description t' = description t ∧
        wrec (row t') = default_record (description t) ∧
        rows_of t' = rows_of t ++ [record_of (description t) items].
Proof.
  intros Hd Hm He Ht Ho Hw Hs H0 Hwrec [Hnd Hfit].
  rewrite add_image_run by done. rewrite (EArray_append_item f e) by done.
  unfold bind at 1. rewrite _get_metadata_row_run, Hm.
  rewrite (Table_row_open _ t) by done.
  unfold bind at 1. rewrite (set_fields_fits items self _ t) by done.
  unfold row_append. rewrite on_file_run.
  unfold Row_append. simpl. rewrite writable_set_table, writable_set_earray, Hw. simpl.
  rewrite foldl_insert_record, Hwrec by done. fold (record_of (description t) items).
  eexists. split; [reflexivity|].
  destruct (_ =? _); simpl; unfold rows_of; simpl; repeat split;
    by rewrite ?app_nil_r, ?app_assoc.
Qed.

Lemma add_images_rows calls : ∀ self f e t,
  data self = Some root_img_stack → metadata self = Some (Some root_metadata) →
  img_stack (root f) = Some e → tables.metadata (root f) = Some t →
  isopen f = true → writable f = true → 0 ∉ item_shape e →
  wrec (row t) = default_record (description t) →
  Forall (λ c, np.shape c.1 = item_shape e ∧ fits (description t) c.2) calls →
  ∃ t', add_images (with_metadata calls) (set_h5file self f) =
          set_h5file self (set_table (set_earray f (foldl pushed e calls.*1)) t') ∧
        outcomes (with_metadata calls) (set_h5file self f) =
          replicate (length calls) (Ok ()) ∧
        description t' = description t ∧
        wrec (row t') = default_record (description t) ∧
        rows_of t' = rows_of t ++ ((λ c, record_of (description t) c.2) <$> calls).
Proof.
  induction calls as [|[img items] calls IH];
    intros self f e t Hd Hm He Ht Ho Hw H0 Hwrec Hcalls.
  - exists t. simpl. rewrite app_nil_r. repeat split; try done.
    f_equal. destruct f as [? ? ? [? ?]]; simpl in *. by subst.
  - apply Forall_cons in Hcalls as [[Hs Hfit] Hcalls]. simpl in Hs, Hfit.
    destruct (add_image_row img items self f e t)
      as (t1 & Hrun & Hd1 & Hw1 & Hr1); try done.
    destruct (IH self (set_table (set_earray f (pushed e img)) t1) (pushed e img) t1)
      as (t' & Hrun' & Hout' & Hd' & Hw' & Hr'); try done.
    { by rewrite Hd1. }
    { rewrite Hd1. eapply Forall_impl; [done|]. by intros ? [??]. }
    exists t'. unfold with_metadata in *. rewrite fmap_cons, add_images_cons.
    simpl. rewrite Hrun. simpl.
    rewrite Hrun', Hout', Hd', Hw', Hr', Hr1, Hd1.
    repeat split; try done. by rewrite <- app_assoc.
Qed.
End row_facts.

Section created_stacks.
Context `{Engine}.
Import tables pyImageStack.

(** Such a stack stays attached to its open, writable file; the element
    type and shape of its array and the description of its table are
    those fixed at creation. *)
Lemma created_from_inv fn img0 cls self :
  created_from fn img0 cls self →
  ∃ f e, attached self f ∧ isopen f = true ∧ writable f = true ∧
         tables.filename f = fn ∧ img_stack (root f) = Some e ∧
         tables.atom e = np.dtype img0 ∧ item_shape e = np.shape img0 ∧
         (0 ∉ np.shape img0) ∧
         description <$> tables.metadata (root f) = cls.
Proof.
  intros (mode & w & w0 & self0 & calls & Hnew & ->).
  apply new_create in Hnew as (H0 & -> & ->).
  destruct (add_images_run calls (created_stack fn img0 cls)
              (created_file fn img0 cls) (new_earray img0))
    as (f' & Hrun & Hf'); try done.
  change (set_h5file (created_stack fn img0 cls) (created_file fn img0 cls))
    with (created_stack fn img0 cls) in Hrun.
  rewrite Hrun.
  destruct (pushed_all_fields (new_earray img0)
              (accepted (new_earray img0) calls)) as (Ha & Hs & _).
  destruct Hf' as (Hfn & Hmd & Ho & He & Hdesc). simpl in Hfn, Hmd, Ho, He, Hdesc.
  assert (description <$> tables.metadata (root f') = cls) as Hcls.
  { rewrite Hdesc. by destruct cls. }
  eexists f', _. repeat split; try done.
  - simpl. rewrite <- Hcls. by destruct (tables.metadata (root f')).
  - unfold writable. by rewrite Hmd.
Qed.
End created_stacks.

Section any_stack.
Context `{Engine}.
Import tables pyImageStack.

Lemma keeps_refl f : keeps f f.
Proof. by repeat split. Qed.

Lemma frame_keeps f f' : frame f f' → keeps f f'.
Proof. intros (?&?&?&He&?). repeat split; try done. by rewrite He. Qed.

Lemma keeps_trans f1 f2 f3 : keeps f1 f2 → keeps f2 f3 → keeps f1 f3.
Proof.
  intros (?&?&?&?&?) (?&?&?&?&?). repeat split; try (etrans; eauto); eauto.
Qed.

(** A successful append: the file was open and writable, the image had
    the item shape, and, unless the array is empty, one row was added. *)
Lemma EArray_append_Ok f e a f' :
  img_stack (root f) = Some e →
  EArray_append f root_img_stack (np.expand_dims a 0) = Ok f' →
  isopen f = true ∧ writable f = true ∧ np.shape a = item_shape e ∧
  f' = (if 0 <? np.size (np.expand_dims (np.array a (tables.atom e)) 0)
        then set_earray f (pushed e a) else f).
Proof.
  intros He. unfold EArray_append. simpl. rewrite He.
  destruct (isopen f); [|done]. destruct (writable f); [|done]. simpl.
  rewrite array_expand_dims. simpl. rewrite drop_0, array_shape.
  destruct (_ =? _); [|done]. simpl.
  case_bool_decide as Hs; [|done]. simpl.
  destruct (0 <? _); by intros [= <-].
Qed.

Lemma EArray_append_keeps f n a f' : EArray_append f n a = Ok f' → keeps f f'.
Proof.
  unfold EArray_append. destruct (get_earray f n) as [e|]; [|done].
  destruct (negb (isopen f)); [done|]. destruct (negb (writable f)); [done|].
  destruct (negb (_ =? _)); [done|]. destruct (negb (bool_decide _)); [done|].
  destruct (0 <? _); intros [= <-]; [|apply keeps_refl].
  repeat split; simpl; eauto.
Qed.

Lemma add_image_keeps img md self f :
  data self = Some root_img_stack →
  ∃ r f', add_image img md (set_h5file self f) = (r, set_h5file self f') ∧ keeps f f'.
Proof.
  intros Hd. rewrite add_image_run by done.
  destruct (EArray_append _ _ _) as [f1|err] eqn:Happ.
  - apply EArray_append_keeps in Happ. destruct md as [items|].
    + destruct (bind_step _get_metadata_row
                  (λ row, bind (set_fields row items) (λ _, row_append row))
                  _get_metadata_row_step
                  (λ row, bind_step _ _ (set_fields_step row items)
                            (λ _, row_append_step row))
                  self f1) as (r & f' & -> & Hf).
      exists r, f'. split; [done|]. eauto using keeps_trans, frame_keeps.
    + by exists (Ok ()), f1.
  - exists (Raise err), f. eauto using keeps_refl.
Qed.

Lemma attached_keeps self f f' :
  attached self f → keeps f f' → attached (set_h5file self f') f'.
Proof.
  intros (Hf & Hd & Hm) (_&_&_&_&Hdesc). repeat split; [done|]. simpl.
  rewrite Hm. destruct (tables.metadata (root f')), (tables.metadata (root f)); done.
Qed.

(** An attached instance stays attached to the same file through any run
    of calls. *)
Lemma add_images_keeps calls : ∀ self f,
  data self = Some root_img_stack →
  ∃ f', add_images calls (set_h5file self f) = set_h5file self f' ∧ keeps f f'.
Proof.
  induction calls as [|[img md] calls IH]; intros self f Hd.
  - exists f. split; [done|apply keeps_refl].
  - rewrite add_images_cons. simpl.
    destruct (add_image_keeps img md self f) as (r & f1 & -> & Hf1); [done|].
    simpl. destruct (IH self f1 Hd) as (f' & -> & Hf').
    exists f'. split; [done|]. by eapply keeps_trans.
Qed.

Lemma add_images_attached calls self f :
  attached self f →
  ∃ f', add_images calls self = set_h5file self f' ∧ keeps f f'.
Proof.
  intros (Hf & Hd & _).
  destruct (add_images_keeps calls self f Hd) as (f' & Hrun & Hk).
  rewrite (set_h5file_id self f Hf) in Hrun. eauto.
Qed.

Lemma open_file_Ok fn md w f w' :
  open_file fn md w = (Ok f, w') →
  tables.filename f = fn ∧ tables.mode f = md ∧ isopen f = true ∧
  open_files w' = fn :: open_files w.
Proof.
  unfold open_file. destruct (existsb _ _); [done|].
  destruct (_ || _); [destruct (disk w !! fn)|
    destruct (String.eqb md "a"); [destruct (disk w !! fn)|
      destruct (String.eqb md "w")]];
    intros [= <- <-]; done.
Qed.

Lemma open_file_handles fn md w f w' :
  open_file fn md w = (Ok f, w') →
  existsb (refuses md) (open_modes fn w) = false ∧
  handles w' = (fn, md) :: handles w.
Proof.
  unfold open_file. destruct (existsb _ _); [done|].
  destruct (_ || _); [destruct (disk w !! fn)|
    destruct (String.eqb md "a"); [destruct (disk w !! fn)|
      destruct (String.eqb md "w")]];
    intros [= <- <-]; done.
Qed.

Lemma open_file_Raise fn md w e w' : open_file fn md w = (Raise e, w') → w' = w.
Proof.
  unfold open_file. destruct (existsb _ _); [by intros [= <-]|].
  destruct (_ || _); [destruct (disk w !! fn)|
    destruct (String.eqb md "a"); [destruct (disk w !! fn)|
      destruct (String.eqb md "w")]];
    by intros [= <-].
Qed.

(** Teardown of an instance whose file is already closed does nothing. *)
Lemma del_closed self f w :
  attached self f → isopen f = false → __del__ self w = (Ok (), self, w).
Proof.
  intros (Hf & Hd & Hm) Ho.
  destruct self as [fn md at_ hf d m]. simpl in *. subst.
  unfold __del__, has_metadata, metadata_isopen, read_file, on_file, put_file,
    bind, getattr, ret, raise. simpl.
  destruct (tables.metadata (root f)); simpl; rewrite ?Ho; simpl;
    unfold File_close; rewrite Ho; simpl; by destruct f.
Qed.

(** Every construction that returns leaves an instance attached to an
    open file of the given name, registered once. *)
Lemma init_Ok fn dummy_img cls md w self w' :
  __init__ fn dummy_img cls md w = (Ok (), self, w') →
  ∃ f, attached self f ∧ isopen f = true ∧ tables.filename f = fn ∧
       is_Some (img_stack (root f)) ∧
       open_files w' = fn :: open_files w ∧
       handles w' = (fn, tables.mode f) :: handles w.
Proof.
  destruct dummy_img as [img|].
  - rewrite init_create. simpl. destruct (existsb _ _); [done|].
    case_bool_decide; [done|].
    destruct cls as [d|]; [destruct (valid_description d)|]; intros [= <- <-];
      by eexists.
  - unfold __init__. simpl.
    destruct (open_file fn md w) as [[f|e] w1] eqn:Hopen; [|by intros [=]].
    pose proof (open_file_handles _ _ _ _ _ Hopen) as [_ Hh].
    apply open_file_Ok in Hopen as (Hfn & Hmd & Ho & Hreg).
    destruct (img_stack (root f)) eqn:He; [|by intros [=]].
    destruct (tables.metadata (root f)) eqn:Hm; intros [= <- <-];
      exists f; repeat split; simpl; by rewrite ?He, ?Hm, ?Hmd.
Qed.
End any_stack.

(** ** Construction *)

Section construction.
Context `{Engine}.
Import tables pyImageStack.

(** C6.  With a template image the mode in effect is ['w'], whatever mode
    the caller asked for: the instance records ['w'] and the file is opened
    with ['w'], so that a file of that name is replaced by a new, empty
    container ([open_file] refuses, with [ValueError] and before touching
    anything, only a file that is still open in this process).  Without a
    template the requested mode, ['r'] when none is given, is recorded and
    used as it is. *)
Theorem effective_mode fn dummy_img cls (mode : option string) w :
  default default_mode None = "r" ∧
  let requested := default default_mode mode in
  let '(r, self, w') := __init__ fn dummy_img cls requested w in
  match dummy_img with
  | Some _ =>
      pyImageStack.mode self = "w" ∧
      (∀ f, _h5file self = Some f → tables.mode f = "w") ∧
      w' = (open_file fn "w" w).2 ∧
      if bool_decide (fn ∈ open_files w)
      then r = Raise ValueError ∧ _h5file self = None ∧ w' = w
      else (∃ f, _h5file self = Some f ∧ tables.mode f = "w") ∧
           disk w' !! fn = Some empty_group
  | None =>
      pyImageStack.mode self = requested ∧
      (∀ f, _h5file self = Some f → tables.mode f = requested) ∧
      w' = (open_file fn requested w).2
  end.
Proof.
  split; [done|]. simpl. destruct dummy_img as [img|].
  - rewrite init_create. unfold open_file. simpl.
    rewrite refuses_w_open. case_bool_decide as Hin; simpl.
    + repeat split; done.
    + assert (<[fn:=empty_group]> (disk w) !! fn = Some empty_group)
        by apply lookup_insert_eq.
      case_bool_decide; [|destruct cls as [d|]; [destruct (valid_description d)|]];
        simpl; repeat split; eauto; by intros ? [= <-].
  - unfold __init__. simpl.
    destruct (open_file fn _ w) as [[f|e] w1] eqn:Hopen; simpl.
    + apply open_file_Ok in Hopen as (_ & Hmd & _).
      destruct (img_stack (root f)); [destruct (tables.metadata (root f))|];
        simpl; repeat split; by intros ? [= <-].
    + done.
Qed.

(** C7.  A stack constructed with a template image has an empty image
    array: its shape is [(0, *template.shape)], its element type and
    item shape are the template's, and none of the template's pixels is
    stored. *)
Theorem new_stack_empty fn img cls mode w self w' :
  new fn (Some img) cls mode w = (Ok self, w') →
  image_array self =
    Some {| tables.atom := np.dtype img; nrows := 0;
            item_shape := np.shape img; buf := [] |} ∧
  atom self = Some (np.dtype img) ∧
  shape self = (Ok (0 :: np.shape img), self) ∧
  __iter__ self = (Ok [], self).
Proof.
  intros Hnew. apply new_create in Hnew as (_ & -> & _). done.
Qed.

(** C8.  Opening a container that holds an image array but no metadata
    table, without a template and in a mode that opens an existing file
    (['r'], also when omitted, ['r+'] or ['a']), is not an error: given
    that the file is not already open in this process, the construction
    returns, the instance's [metadata] is [None], and [has_metadata()]
    returns false. *)
Theorem open_without_metadata fn cls (mode : option string) w g e :
  mode ∈ [None; Some "r"; Some "r+"; Some "a"] →
  fn ∉ open_files w →
  disk w !! fn = Some g → img_stack g = Some e → tables.metadata g = None →
  ∃ self w',
    new fn None cls mode w = (Ok self, w') ∧
    metadata self = Some None ∧
    has_metadata self = (Ok false, self).
Proof.
  intros Hmode Hfree Hg He Hm. unfold new.
  rewrite (init_open fn cls _ w g e); [| | |done..].
  - eexists _, _. split; [done|]. unfold opened_stack, has_metadata. simpl.
    by rewrite Hm.
  - set_unfold. destruct Hmode as [->|[->|[->|[->|[]]]]]; simpl; eauto.
  - by rewrite open_modes_nil.
Qed.
End construction.

(** ** Appending *)

Section appending.
Context `{Engine}.
Import tables pyImageStack.

Lemma image_array_set_h5file self f :
  data self = Some root_img_stack →
  image_array (set_h5file self f) = img_stack (root f).
Proof. unfold image_array. simpl. by intros ->. Qed.

(** C9.  [shape] returns the shape [(N, *item_shape)] of the image array
    and changes nothing; a call of [add_image] that returns turns the
    shape [(N, *item_shape)] into [(N + 1, *item_shape)].  (An array has
    no dimension 0 among those of its items: [create_earray] refuses a
    second one.) *)
Theorem shape_live self img md self' N items :
  shape self = (Ok (N :: items), self) → 0 ∉ items →
  add_image img md self = (Ok (), self') →
  (∀ s, (shape s).2 = s) ∧
  (∃ e, image_array self = Some e ∧ tables.shape e = N :: items) ∧
  (∃ e', image_array self' = Some e' ∧ tables.shape e' = S N :: items) ∧
  shape self' = (Ok (S N :: items), self').
Proof.
  intros Hshape H0 Hadd. split.
  { intros s. unfold shape, read_file, bind, getattr.
    destruct (data s); [|done]. destruct (_h5file s); [|done]. simpl.
    by destruct (EArray_shape _ _). }
  unfold shape, read_file, bind, getattr, ret, raise in Hshape.
  destruct (data self) as [d|] eqn:Hd; [|done].
  destruct (_h5file self) as [f|] eqn:Hf; [|done].
  unfold EArray_shape in Hshape.
  destruct (get_earray f d) as [e|] eqn:He; [|done].
  destruct d; [|done]. simpl in He.
  destruct (isopen f) eqn:Ho; [|done]. simpl in Hshape.
  injection Hshape as HN Hitems.
  rewrite <- (set_h5file_id self f Hf) in Hadd.
  pose proof Hadd as Hadd'. rewrite add_image_run in Hadd' by done.
  destruct (EArray_append _ _ _) as [f1|err] eqn:Happ; [|done]. clear Hadd'.
  apply (EArray_append_Ok f e) in Happ as (_ & Hw & Hs & _); [|done].
  destruct (add_image_appends img md self f e) as (r & f' & Hrun & Hf' & _);
    try done; [by rewrite Hitems|].
  rewrite Hrun in Hadd. injection Hadd as -> <-.
  destruct Hf' as (_ & _ & Ho' & He' & _). simpl in Ho', He'.
  split; [|split].
  - exists e. rewrite <- (set_h5file_id self f Hf).
    rewrite image_array_set_h5file by done. unfold tables.shape. by rewrite HN, Hitems.
  - exists (pushed e img). rewrite image_array_set_h5file by done.
    split; [done|]. unfold tables.shape. simpl. rewrite HN, Hitems. f_equal. lia.
  - unfold shape, bind, getattr. simpl. rewrite Hd, read_file_run.
    unfold EArray_shape. simpl. rewrite He', Ho', Ho. simpl.
    unfold tables.shape. simpl. rewrite HN, Hitems. do 3 f_equal. lia.
Qed.

(** C10.  On a stack created without a metadata schema, [add_image] with
    a metadata dict first appends the image, then fails on the row, which
    is [None] ([TypeError] at the first field, [AttributeError] at
    [row.append()] for an empty dict); the image stays appended, and the
    stack is one image longer than before the call. *)
Theorem add_image_metadata_without_table fn img0 self img items :
  created_from fn img0 None self →
  np.shape img = np.shape img0 →
  ∃ e self',
    image_array self = Some e ∧
    shape self = (Ok (nrows e :: np.shape img0), self) ∧
    add_image img (Some items) self =
      (Raise (match items with [] => AttributeError | _ => TypeError end), self') ∧
    image_array self' = Some (pushed e img) ∧
    shape self' = (Ok (S (nrows e) :: np.shape img0), self').
Proof.
  intros Hc Hs. apply created_from_inv in Hc
    as (f & e & Hatt & Ho & Hw & Hfn & He & Ha & His & H0 & Hcls).
  pose proof Hatt as (Hf & Hd & Hm).
  destruct (tables.metadata (root f)) eqn:Ht; [done|].
  exists e, (set_h5file self (set_earray f (pushed e img))).
  split; [|split; [|split; [|split]]].
  - rewrite <- (set_h5file_id self f Hf). by rewrite image_array_set_h5file.
  - rewrite (shape_attached self f e) by done. by rewrite His.
  - rewrite <- (set_h5file_id self f Hf) at 1.
    apply add_image_no_table; try done; by rewrite His.
  - by rewrite image_array_set_h5file.
  - rewrite (shape_attached _ (set_earray f (pushed e img)) (pushed e img)); try done.
    + simpl. rewrite His. do 3 f_equal. lia.
    + repeat split; simpl; try done. by rewrite Ht.
Qed.

(** C5, as the code has it.  On a stack created from a template,
    [add_image] with an image whose shape differs from the item shape
    fails with the array's shape mismatch ([ValueError]) and writes
    nothing: the instance is left as it was, so [shape[0]] is unchanged.
    The dtype is not compared: an image of the item shape is converted to
    the element dtype and appended, whatever its dtype. *)
Theorem add_image_shape_mismatch fn img0 cls self img md :
  created_from fn img0 cls self →
  (np.shape img ≠ np.shape img0 →
   add_image img md self = (Raise ValueError, self)) ∧
  (np.shape img = np.shape img0 →
   ∃ e self',
     image_array self = Some e ∧
     add_image img None self = (Ok (), self') ∧
     image_array self' = Some (pushed e img) ∧
     shape self' = (Ok (S (nrows e) :: np.shape img0), self')).
Proof.
  intros Hc. apply created_from_inv in Hc
    as (f & e & Hatt & Ho & Hw & Hfn & He & Ha & His & H0 & Hcls).
  pose proof Hatt as (Hf & Hd & Hm). split; intros Hs.
  - rewrite <- (set_h5file_id self f Hf).
    apply (add_image_mismatch img md self f e); try done. by rewrite His.
  - exists e, (set_h5file self (set_earray f (pushed e img))).
    split; [|split; [|split]].
    + rewrite <- (set_h5file_id self f Hf). by rewrite image_array_set_h5file.
    + rewrite <- (set_h5file_id self f Hf) at 1.
      rewrite add_image_run, (EArray_append_item f e); try done; by rewrite His.
    + by rewrite image_array_set_h5file.
    + rewrite (shape_attached _ (set_earray f (pushed e img)) (pushed e img)); try done.
      simpl. rewrite His. do 3 f_equal. lia.
Qed.
End appending.

(** ** Metadata rows *)

Section alignment.
Context `{Engine}.
Import tables pyImageStack.

(** C3, as the code has it.  A stack is created with a metadata schema
    and every [add_image] call passes an image of the item shape and a
    metadata dict that fits the schema.  Every call returns, and the rows
    written to the table plus the rows still in its I/O buffer number
    [shape[0]].  Once the buffer is flushed ([Table.flush()], which
    teardown calls), the table's length is [shape[0]] and its row [i] is
    the record of the dict passed in the call that appended image [i]. *)
Theorem metadata_aligned fn img0 cls mode w self0 w0
    (calls : list (np.ndarray * list (string * Value))) :
  new fn (Some img0) (Some cls) mode w = (Ok self0, w0) →
  Forall (λ c, np.shape c.1 = np.shape img0 ∧ np.wf c.1 ∧ fits cls c.2) calls →
  let self := add_images (with_metadata calls) self0 in
  outcomes (with_metadata calls) self0 = replicate (length calls) (Ok ()) ∧
  shape self = (Ok (length calls :: np.shape img0), self) ∧
  (∃ t, metadata_table self = Some t ∧
        length (saved t) + length (iobuf (row t)) = length calls) ∧
  ∃ self' t',
    flush_metadata self = (Ok (), self') ∧
    shape self' = (Ok (length calls :: np.shape img0), self') ∧
    metadata_table self' = Some t' ∧
    Table_len t' = length calls ∧
    ∀ i c, calls !! i = Some c →
      __getitem__ i self' = (Ok (np.array c.1 (np.dtype img0)), self') ∧
      Table_getitem t' i = Ok (record_of cls c.2).
Proof.
  intros Hnew Hcalls self. subst self.
  apply new_create in Hnew as (H0 & -> & ->).
  set (self0 := created_stack fn img0 (Some cls)).
  set (f0 := created_file fn img0 (Some cls)).
  destruct (add_images_rows calls self0 f0 (new_earray img0) (new_table cls))
    as (t & Hrun & Hout & Hdesc & Hwrec & Hrows); try done.
  { eapply Forall_impl; [done|]. by intros ? (?&?&?). }
  change (set_h5file self0 f0) with self0 in Hrun, Hout.
  rewrite Hrun, Hout. clear Hrun Hout.
  set (e := foldl pushed (new_earray img0) calls.*1) in *.
  destruct (pushed_all_fields (new_earray img0) calls.*1) as (Ha & Hs & Hn & _).
  fold e in Ha, Hs, Hn. simpl in Ha, Hs, Hn. rewrite length_fmap in Hn.
  simpl in Hrows. unfold rows_of in Hrows.
  split; [done|]. split; [|split].
  - rewrite (shape_attached _ (set_table (set_earray f0 e) t) e); try done.
    by rewrite Hn, Hs.
  - exists t. split; [done|].
    by rewrite <- length_app, Hrows, length_fmap.
  - set (t' := flush_buffered_rows t).
    set (f' := set_table (set_table (set_earray f0 e) t) t').
    exists (set_h5file self0 f'), t'.
    assert (attached (set_h5file self0 f') f') as Hatt by done.
    assert (saved t' = (λ c, record_of cls c.2) <$> calls) as Hsaved by done.
    split; [done|]. split; [|split; [done|split]].
    + rewrite (shape_attached _ f' e); try done. by rewrite Hn, Hs.
    + unfold Table_len. by rewrite Hsaved, length_fmap.
    + intros i c Hi. split.
      * rewrite (getitem_attached _ f' e i Hatt) by
          (try done; rewrite Hn; by apply lookup_lt_Some in Hi).
        do 2 f_equal. apply (item_pushed (new_earray img0)); [done| |].
        -- apply Forall_fmap. eapply Forall_impl; [done|]. by intros ? (?&?&?).
        -- by rewrite list_lookup_fmap, Hi.
      * unfold Table_getitem. by rewrite Hsaved, list_lookup_fmap, Hi.
Qed.
End alignment.

(** ** The file handle *)

Section handle.
Context `{Engine}.
Import tables pyImageStack.

(** C4, as the code has it.  A construction registers the file handle at
    most once: once when [open_file] returns, never when it raises.  When
    the construction returns, teardown ([__del__]) after any run of
    [add_image] calls releases the handle, leaving the registry as it
    was before the construction, and a repeated teardown changes
    nothing. *)
Theorem handle_lifecycle fn dummy_img cls md w :
  match __init__ fn dummy_img cls md w with
  | (Ok _, self0, w0) =>
      open_files w0 = fn :: open_files w ∧
      ∀ calls : list call, ∃ self1 w1,
        __del__ (add_images calls self0) w0 = (Ok (), self1, w1) ∧
        open_files w1 = open_files w ∧
        __del__ self1 w1 = (Ok (), self1, w1)
  | (Raise _, self0, w0) =>
      match _h5file self0 with
      | Some _ => open_files w0 = fn :: open_files w
      | None => open_files w0 = open_files w
      end
  end.
Proof.
  destruct (__init__ fn dummy_img cls md w) as [[[[]|err] self0] w0] eqn:Hinit.
  - apply init_Ok in Hinit as (f & Hatt & Ho & Hfn & _ & Hreg & Hh).
    split; [done|]. intros calls.
    destruct (add_images_attached calls self0 f Hatt) as (f' & -> & Hk).
    pose proof (attached_keeps _ _ _ Hatt Hk) as Hatt'.
    pose proof Hk as (Hfn' & Hmd' & Ho' & _).
    rewrite (del_attached _ f' w0 Hatt') by congruence.
    eexists _, _. split; [done|]. split.
    + rewrite Hfn', Hmd', Hfn. unfold open_files.
      destruct (writable f'); simpl; by rewrite Hh, remove_one_head.
    + apply (del_closed _ {| tables.filename := tables.filename f';
                             tables.mode := tables.mode f'; isopen := false;
                             root := if writable f' then close_group (root f')
                                     else root f' |}); [|done].
      destruct Hatt' as (_ & Hd' & Hm'). repeat split; [done|]. simpl in *.
      rewrite Hm'. destruct (writable f'); [|done].
      simpl. by destruct (tables.metadata (root f')).
  - destruct dummy_img as [img|].
    + rewrite init_create in Hinit. simpl in Hinit.
      destruct (existsb _ _); [by injection Hinit as _ <- <-|].
      case_bool_decide; [|destruct cls as [d|]; [destruct (valid_description d)|]];
        by injection Hinit as _ <- <-.
    + unfold __init__ in Hinit. simpl in Hinit.
      destruct (open_file fn md w) as [[f|e] w1] eqn:Hopen.
      * apply open_file_Ok in Hopen as (_ & _ & _ & Hreg).
        destruct (img_stack (root f)); [destruct (tables.metadata (root f))|];
          by injection Hinit as _ <- <-.
      * apply open_file_Raise in Hopen as ->. by injection Hinit as _ <- <-.
Qed.
End handle.

(** ** Reading *)

Section reading.
Context `{Engine}.
Import tables pyImageStack.

(** X2.  Iteration and indexing agree.  When [__iter__] yields the list
    [l], [shape[0]] is the length of [l], index [i] returns the [i]-th
    element of [l] for every [i] below that length, and every other
    non-negative index raises [IndexError]. *)
Theorem iter_agrees_with_getitem self self' l :
  __iter__ self = (Ok l, self') →
  (∃ items, shape self = (Ok (length l :: items), self)) ∧
  ∀ i, __getitem__ i self =
         (match l !! i with Some a => Ok a | None => Raise IndexError end, self).
Proof.
  unfold __iter__, shape, __getitem__, read_file, bind, getattr, ret, raise.
  destruct (data self) as [d|]; [|done]. destruct (_h5file self) as [f|]; [|done].
  unfold EArray_iter, EArray_shape, EArray_getitem.
  destruct (get_earray f d) as [e|]; [|done].
  destruct (isopen f); [|done]. simpl. intros [= <- <-].
  rewrite length_fmap, length_seq. split; [by eexists|].
  intros i. rewrite list_lookup_fmap.
  destruct (Nat.leb_spec (nrows e) i) as [Hi|Hi].
  - by rewrite lookup_seq_ge.
  - by rewrite lookup_seq_lt.
Qed.
End reading.

(** ** Opening and closing *)

Section sessions.
Context `{Engine}.
Import tables pyImageStack.

Lemma new_init fn dummy_img cls mode w self w' :
  new fn dummy_img cls mode w = (Ok self, w') →
  __init__ fn dummy_img cls (default default_mode mode) w = (Ok (), self, w').
Proof.
  unfold new. destruct (__init__ _ _ _ _ _) as [[[[]|e] s] w1]; by intros [= <- <-].
Qed.

(** A construction without a template that returns has opened the file
    and found the image array. *)
Lemma new_open fn cls mode w self w' :
  new fn None cls mode w = (Ok self, w') →
  ∃ g e, open_file fn (default default_mode mode) w =
           (Ok {| tables.filename := fn; tables.mode := default default_mode mode;
                  isopen := true; root := g |}, w') ∧
         img_stack g = Some e ∧
         self = opened_stack fn (default default_mode mode) g.
Proof.
  intros Hnew. apply new_init in Hnew. unfold __init__ in Hnew. simpl in Hnew.
  destruct (open_file fn _ w) as [[f|err] w1] eqn:Hopen; [|done].
  pose proof Hopen as (Hfn & Hmd & Ho & _)%open_file_Ok.
  destruct f as [fn' md' o g]. simpl in *. subst.
  destruct (img_stack g) as [e|] eqn:He; [|done].
  exists g, e. split; [|split; [done|]].
  - by destruct (tables.metadata g); injection Hnew as <- <-.
  - unfold opened_stack. by destruct (tables.metadata g); injection Hnew as <- <-.
Qed.

Lemma open_file_read fn w f w' :
  open_file fn "r" w = (Ok f, w') →
  disk w !! fn = Some (root f) ∧ w' = register fn "r" w ∧
  existsb (refuses "r") (open_modes fn w) = false.
Proof.
  unfold open_file. destruct (existsb _ _); [done|]. simpl.
  destruct (disk w !! fn); [|done]. by intros [= <- <-].
Qed.

Lemma unregister_register fn md w : unregister fn md (register fn md w) = w.
Proof.
  destruct w. unfold unregister, register. simpl. by rewrite bool_decide_eq_true_2.
Qed.

(** X3.  Whether a stack has metadata is settled at construction: after
    any run of [add_image] calls [has_metadata()] answers as it did on the
    new instance, and for a stack created from a template that answer is
    whether a schema was given. *)
Theorem has_metadata_stable fn dummy_img cls mode w self0 w0 (calls : list call) :
  new fn dummy_img cls mode w = (Ok self0, w0) →
  (∃ b, has_metadata self0 = (Ok b, self0) ∧
        has_metadata (add_images calls self0) = (Ok b, add_images calls self0)) ∧
  (is_Some dummy_img → has_metadata self0 = (Ok (bool_decide (is_Some cls)), self0)).
Proof.
  intros Hnew. pose proof (new_init _ _ _ _ _ _ _ Hnew) as Hinit.
  apply init_Ok in Hinit as (f & Hatt & _).
  destruct (add_images_attached calls self0 f Hatt) as (f' & -> & Hk).
  split.
  - rewrite (has_metadata_attached _ _ Hatt). eexists. split; [done|].
    rewrite (has_metadata_attached _ f' (attached_keeps _ _ _ Hatt Hk)).
    do 2 f_equal. apply bool_decide_ext.
    destruct Hk as (_&_&_&_&Hdesc).
    rewrite <- !(fmap_is_Some description). by rewrite Hdesc.
  - intros [img ->]. apply new_create in Hnew as (_ & -> & _). by destruct cls.
Qed.

(** X4.  A stack opened read-only (mode ['r'], also when omitted) cannot
    be changed: every [add_image] raises [FileModeError] and leaves the
    instance as it was, and teardown returns the world to what it was
    before the file was opened, container included. *)
Theorem read_only_stack fn cls mode w self0 w0 :
  mode = None ∨ mode = Some "r" →
  new fn None cls mode w = (Ok self0, w0) →
  (∀ img md, add_image img md self0 = (Raise FileModeError, self0)) ∧
  (∀ calls : list call, add_images calls self0 = self0) ∧
  ∃ self1, __del__ self0 w0 = (Ok (), self1, w).
Proof.
  intros Hmode Hnew.
  assert (default default_mode mode = "r") as Hmd by (by destruct Hmode as [-> | ->]).
  apply new_open in Hnew as (g & e & Hopen & He & ->). rewrite Hmd in *.
  apply open_file_read in Hopen as (Hg & -> & _).
  set (f := {| tables.filename := fn; tables.mode := "r"; isopen := true; root := g |}).
  assert (∀ img md, add_image img md (opened_stack fn "r" g)
                    = (Raise FileModeError, opened_stack fn "r" g)) as Hadd.
  { intros img md.
    change (opened_stack fn "r" g) with (set_h5file (opened_stack fn "r" g) f).
    rewrite add_image_run by done.
    unfold EArray_append. simpl. by rewrite He. }
  split; [done|]. split.
  - induction calls as [|[img md] calls IH]; [done|].
    rewrite add_images_cons. simpl. by rewrite Hadd.
  - rewrite (del_attached _ f) by done. simpl.
    eexists. by rewrite unregister_register.
Qed.

(** X5.  Opening the same container read-only a second time yields the
    same images in the same order, and neither opening changes what is on
    disk. *)
Theorem read_only_open_twice fn cls cls' w self1 w1 :
  new fn None cls None w = (Ok self1, w1) →
  ∃ self2 w2 l,
    new fn None cls' None w1 = (Ok self2, w2) ∧
    __iter__ self1 = (Ok l, self1) ∧
    __iter__ self2 = (Ok l, self2) ∧
    disk w1 = disk w ∧ disk w2 = disk w.
Proof.
  intros Hnew. apply new_open in Hnew as (g & e & Hopen & He & ->). simpl in *.
  apply open_file_read in Hopen as (Hg & -> & Hfree). simpl in Hg.
  exists (opened_stack fn "r" g), (register fn "r" (register fn "r" w)), (items_of e).
  split; [|split; [|split]].
  - unfold new. simpl. rewrite (init_open fn cls' "r" _ g e); [done|by left| |done..].
    by rewrite open_modes_register.
  - unfold __iter__, read_file, bind, getattr, EArray_iter. simpl. by rewrite He.
  - unfold __iter__, read_file, bind, getattr, EArray_iter. simpl. by rewrite He.
  - done.
Qed.

(** X6.  Opening a file that does not exist for reading (mode ['r'], also
    when omitted, or ['r+']) raises [OSError], or [ValueError] when a
    handle still open on that name excludes the requested mode; either
    way no instance is produced, no handle is registered and nothing is
    created on disk. *)
Theorem missing_file fn cls mode w :
  disk w !! fn = None →
  mode ∈ [None; Some "r"; Some "r+"] →
  new fn None cls mode w =
    (Raise (if existsb (refuses (default default_mode mode)) (open_modes fn w)
            then ValueError else OSError), w) ∧
  _h5file (__init__ fn None cls (default default_mode mode) w).1.2 = None.
Proof.
  intros Hfn Hmode. unfold new, __init__, open_file.
  set_unfold. destruct Hmode as [->|[->|[->|[]]]]; simpl;
    destruct (existsb _ _); simpl; by rewrite ?Hfn.
Qed.

(** X7.  Without a template, mode ['w'] on a file that is not open in
    this process never yields a stack: the file is replaced by an empty
    container, the construction raises [NoSuchNodeError] for the missing
    image array, and the handle stays registered.  Mode ['a'] does the
    same on a file that does not exist. *)
Theorem write_mode_without_template fn cls w :
  fn ∉ open_files w →
  let w' := register fn "w" (store fn empty_group w) in
  new fn None cls (Some "w") w = (Raise NoSuchNodeError, w') ∧
  disk w' !! fn = Some empty_group ∧
  open_files w' = fn :: open_files w ∧
  (disk w !! fn = None →
   new fn None cls (Some "a") w =
     (Raise NoSuchNodeError, register fn "a" (store fn empty_group w))).
Proof.
  intros Hfree%open_modes_nil. simpl.
  split; [|split; [apply lookup_insert_eq|split; [done|]]].
  - unfold new, __init__, open_file. simpl. by rewrite Hfree.
  - intros Hfn. unfold new, __init__, open_file. simpl. by rewrite Hfree, Hfn.
Qed.

(** X8.  After teardown the stack is unusable but intact: [add_image] and
    [__getitem__] raise [ClosedNodeError] and leave the instance as it
    is, while [has_metadata()] still answers as before. *)
Theorem closed_stack fn dummy_img cls mode w self0 w0 (calls : list call) r self1 w1 :
  new fn dummy_img cls mode w = (Ok self0, w0) →
  __del__ (add_images calls self0) w0 = (r, self1, w1) →
  (∀ img md, add_image img md self1 = (Raise ClosedNodeError, self1)) ∧
  (∀ i, __getitem__ i self1 = (Raise ClosedNodeError, self1)) ∧
  (has_metadata self1).1 = (has_metadata self0).1.
Proof.
  intros Hnew Hdel. apply new_init in Hnew.
  apply init_Ok in Hnew as (f & Hatt & Ho & _ & [e He] & _).
  destruct (add_images_attached calls self0 f Hatt) as (f' & Hrun & Hk).
  pose proof (attached_keeps _ _ _ Hatt Hk) as Hatt'.
  pose proof Hk as (_ & _ & Ho' & He' & _).
  destruct He' as [e' He']; [by eexists|].
  rewrite Hrun, (del_attached _ f' w0 Hatt') in Hdel by congruence.
  injection Hdel as _ <- _.
  destruct Hatt as (_ & Hd & Hm).
  set (fc := {| tables.filename := tables.filename f'; tables.mode := tables.mode f';
                isopen := false;
                root := if writable f' then close_group (root f') else root f' |}).
  assert (img_stack (root fc) = Some e') as Hec by (simpl; by destruct (writable f')).
  split; [|split].
  - intros img md.
    change (set_h5file (set_h5file self0 f') fc) with (set_h5file self0 fc).
    rewrite add_image_run by done.
    unfold EArray_append.
    change (get_earray fc root_img_stack) with (img_stack (root fc)).
    by rewrite Hec.
  - intros i.
    change (set_h5file (set_h5file self0 f') fc) with (set_h5file self0 fc).
    unfold __getitem__, bind. unfold getattr at 1. simpl data. rewrite Hd.
    rewrite read_file_run. unfold EArray_getitem.
    change (get_earray fc root_img_stack) with (img_stack (root fc)).
    by rewrite Hec.
  - unfold has_metadata, bind, getattr. simpl. by rewrite Hm.
Qed.
End sessions.

(** ** What a stack holds *)

Section contents.
Context `{Engine}.
Import tables pyImageStack.

Lemma pushed_wf (e : EArray) (a : np.ndarray) :
  EArray_wf e → np.shape a = item_shape e → np.wf a → EArray_wf (pushed e a).
Proof.
  intros [H0 Hlen] Hs Hwf. split; [done|]. simpl.
  rewrite length_app, array_flat_length, Hlen.
  unfold np.wf, np.size in Hwf. rewrite Hwf, Hs. unfold item_size. simpl. lia.
Qed.

(** One more item leaves the earlier items as they were and is read back
    last, in the array's dtype. *)
Lemma items_of_pushed (e : EArray) (a : np.ndarray) :
  EArray_wf e → np.shape a = item_shape e → np.wf a →
  items_of (pushed e a) = items_of e ++ [np.array a (tables.atom e)].
Proof.
  intros [H0 Hlen] Hs Hwf. unfold items_of. simpl.
  rewrite seq_app, fmap_app. simpl. f_equal.
  - apply Forall_fmap_ext_1, Forall_forall. intros i Hi%elem_of_seq.
    unfold item, item_size. simpl. f_equal.
    fold (item_size e).
    rewrite drop_app_le by nia. rewrite take_app_le; [done|].
    rewrite length_drop. nia.
  - f_equal. unfold item, item_size. simpl. fold (item_size e).
    rewrite drop_app_length' by lia.
    assert (length (np.flat (np.array a (tables.atom e))) = item_size e) as Hfa.
    { rewrite array_flat_length. unfold np.wf, np.size in Hwf.
      by rewrite Hwf, Hs. }
    rewrite take_ge by lia.
    unfold np.array. destruct (decide _) as [Hd|Hd]; simpl; [|by rewrite Hs].
    destruct a; simpl in *. by subst.
Qed.

Lemma items_of_pushed_all (imgs : list np.ndarray) : ∀ e : EArray,
  EArray_wf e →
  Forall (λ a, np.shape a = item_shape e ∧ np.wf a) imgs →
  EArray_wf (foldl pushed e imgs) ∧
  items_of (foldl pushed e imgs) =
    items_of e ++ ((λ a, np.array a (tables.atom e)) <$> imgs).
Proof.
  induction imgs as [|a imgs IH]; intros e Hwf Himgs; simpl.
  - by rewrite app_nil_r.
  - apply Forall_cons in Himgs as [[Hs Ha] Himgs].
    destruct (IH (pushed e a)) as [Hwf' ->]; [by apply pushed_wf|done|].
    split; [done|]. rewrite items_of_pushed by done. by rewrite <- app_assoc.
Qed.

Lemma iter_attached self f e :
  attached self f → isopen f = true → img_stack (root f) = Some e →
  __iter__ self = (Ok (items_of e), self).
Proof.
  intros (Hf & Hd & _) Ho He. rewrite <- (set_h5file_id self f Hf).
  unfold __iter__, bind, getattr. simpl. rewrite Hd, read_file_run.
  unfold EArray_iter. simpl. by rewrite He, Ho.
Qed.

Lemma items_of_lookup (e : EArray) (i : nat) (a : np.ndarray) :
  items_of e !! i = Some a → i < nrows e ∧ item e i = a.
Proof.
  unfold items_of. rewrite list_lookup_fmap.
  destruct (seq 0 (nrows e) !! i) as [j|] eqn:Hj; [|done].
  apply lookup_seq in Hj as [-> Hi]. simpl. by intros [= <-].
Qed.

Lemma items_of_length (e : EArray) : length (items_of e) = nrows e.
Proof. unfold items_of. by rewrite length_fmap, length_seq. Qed.

Lemma new_earray_wf (img : np.ndarray) : 0 ∉ np.shape img → EArray_wf (new_earray img).
Proof. by split. Qed.

(** The file of a created stack after a run of calls. *)
Lemma created_run fn img0 cls mode w self0 w0 (calls : list call) :
  new fn (Some img0) cls mode w = (Ok self0, w0) →
  ∃ f', add_images calls self0 = set_h5file self0 f' ∧
        attached (set_h5file self0 f') f' ∧
        isopen f' = true ∧ writable f' = true ∧ tables.filename f' = fn ∧
        img_stack (root f') =
          Some (foldl pushed (new_earray img0) (accepted (new_earray img0) calls)) ∧
        (0 ∉ np.shape img0) ∧
        self0 = created_stack fn img0 cls ∧
        w0 = register fn "w" (store fn empty_group w).
Proof.
  intros Hnew. apply new_create in Hnew as (H0 & -> & ->).
  destruct (add_images_run calls (created_stack fn img0 cls)
              (created_file fn img0 cls) (new_earray img0))
    as (f' & Hrun & Hf'); try done.
  change (set_h5file (created_stack fn img0 cls) (created_file fn img0 cls))
    with (created_stack fn img0 cls) in Hrun.
  destruct Hf' as (Hfn & Hmd & Ho & He & Hdesc). simpl in Hfn, Hmd, Ho, He, Hdesc.
  exists f'. repeat split; try done.
  - simpl. destruct (tables.metadata (root f')), cls; done.
  - unfold writable. by rewrite Hmd.
Qed.

(** X9.  A created stack holds exactly the images that had the item
    shape, in the order of the calls and in the element dtype: the calls
    refused for their shape leave no trace.  [shape[0]] counts those
    images, iteration yields them, and index [i] returns the [i]-th. *)
Theorem stack_holds_accepted_images fn img0 cls mode w self0 w0 (calls : list call) :
  new fn (Some img0) cls mode w = (Ok self0, w0) →
  Forall (λ c : call, np.wf c.1) calls →
  let self := add_images calls self0 in
  let kept := (λ a, np.array a (np.dtype img0)) <$>
                filter (λ a, np.shape a = np.shape img0) calls.*1 in
  shape self = (Ok (length kept :: np.shape img0), self) ∧
  __iter__ self = (Ok kept, self) ∧
  ∀ i a, kept !! i = Some a → __getitem__ i self = (Ok a, self).
Proof.
  intros Hnew Hwf. simpl.
  destruct (created_run _ _ _ _ _ _ _ calls Hnew)
    as (f' & -> & Hatt & Ho & _ & _ & He & H0 & _ & _).
  set (e0 := new_earray img0) in *.
  destruct (items_of_pushed_all (accepted e0 calls) e0) as [_ Hitems].
  { by apply new_earray_wf. }
  { unfold accepted. apply Forall_forall. intros a [Hs Ha]%list_elem_of_filter.
    split; [done|]. apply list_elem_of_fmap in Ha as (c & -> & Hc).
    by apply (proj1 (Forall_forall _ _) Hwf). }
  set (e := foldl pushed e0 (accepted e0 calls)) in *.
  assert ((λ a, np.array a (np.dtype img0)) <$>
            filter (λ a, np.shape a = np.shape img0) calls.*1 = items_of e) as ->.
  { symmetry. exact Hitems. }
  destruct (pushed_all_fields e0 (accepted e0 calls)) as (_ & Hs & _). fold e in Hs.
  split; [|split].
  - rewrite (shape_attached _ f' e) by done. by rewrite items_of_length, Hs.
  - by apply (iter_attached _ f').
  - intros i a [Hi <-]%items_of_lookup. by apply (getitem_attached _ f').
Qed.
End contents.

(** ** Sessions on an existing stack and metadata on disk *)

Section later_sessions.
Context `{Engine}.
Import tables pyImageStack.

(** X10.  A stack can be continued.  Opening an existing container that
    is not open in this process with mode ['a'] or ['r+'], appending
    images of the item shape and tearing down leaves a container that,
    reopened read-only, holds the earlier images followed by the new ones,
    in order. *)
Theorem append_session fn cls mode w g e (calls : list call) :
  mode = "a" ∨ mode = "r+" →
  fn ∉ open_files w →
  disk w !! fn = Some g → img_stack g = Some e → EArray_wf e →
  Forall (λ c : call, np.shape c.1 = item_shape e ∧ np.wf c.1) calls →
  ∃ self0 w0 self1 w1 self2 w2,
    new fn None cls (Some mode) w = (Ok self0, w0) ∧
    __del__ (add_images calls self0) w0 = (Ok (), self1, w1) ∧
    new fn None None None w1 = (Ok self2, w2) ∧
    shape self2 = (Ok (nrows e + length calls :: item_shape e), self2) ∧
    __iter__ self2 =
      (Ok (items_of e ++ ((λ c : call, np.array c.1 (tables.atom e)) <$> calls)), self2).
Proof.
  intros Hmode Hfree%open_modes_nil Hg He Hwf Hcalls.
  set (f := {| tables.filename := fn; tables.mode := mode; isopen := true; root := g |}).
  assert (writable f = true) as Hw by (by destruct Hmode as [-> | ->]).
  destruct (add_images_run calls (opened_stack fn mode g) f e)
    as (f' & Hrun & Hf'); try done; [apply Hwf|].
  change (set_h5file (opened_stack fn mode g) f) with (opened_stack fn mode g) in Hrun.
  rewrite accepted_all in Hf' by (eapply Forall_impl; [done|]; by intros ? [??]).
  set (e' := foldl pushed e calls.*1) in *.
  destruct Hf' as (Hfn & Hmd & Ho & He' & Hdesc). simpl in Hfn, Hmd, Ho, He', Hdesc.
  assert (attached (set_h5file (opened_stack fn mode g) f') f') as Hatt.
  { repeat split. simpl.
    destruct (tables.metadata (root f')), (tables.metadata g); done. }
  assert (writable f' = true) as Hw' by (unfold writable; by rewrite Hmd).
  set (g' := close_group (root f')).
  exists (opened_stack fn mode g), (register fn mode w).
  eexists _, _, (opened_stack fn "r" g'), _.
  split; [|split; [|split]].
  - unfold new. simpl. rewrite (init_open fn cls mode w g e); try done.
    + destruct Hmode; eauto.
    + by rewrite Hfree.
  - rewrite Hrun, (del_attached _ f') by done.
    by rewrite Hw', Hfn, Hmd, unregister_store.
  - unfold new. simpl.
    rewrite (init_open fn None "r" _ g' e'); [done|by left| | |done].
    + unfold open_modes. simpl. fold (open_modes fn w). by rewrite Hfree.
    + simpl. apply lookup_insert_eq.
  - destruct (items_of_pushed_all calls.*1 e) as [_ Hitems]; [done| |].
    { apply Forall_fmap. eapply Forall_impl; [done|]. by intros ? [??]. }
    destruct (pushed_all_fields e calls.*1) as (_ & Hs & Hn & _).
    fold e' in Hitems, Hs, Hn. rewrite length_fmap in Hn.
    pose proof (opened_attached fn "r" g') as Hatt2.
    split.
    + rewrite (shape_attached _ _ e' Hatt2) by done. by rewrite Hn, Hs.
    + rewrite (iter_attached _ _ e' Hatt2) by done.
      by rewrite Hitems, <- list_fmap_compose.
Qed.

(** X11.  On a stack created with a metadata schema, [add_image] without
    metadata returns, appends the image and hands no row to the table:
    from then on the table is one row short of the images. *)
Theorem add_image_without_metadata fn img0 cls self img :
  created_from fn img0 (Some cls) self →
  np.shape img = np.shape img0 →
  ∃ e t self',
    image_array self = Some e ∧ metadata_table self = Some t ∧
    add_image img None self = (Ok (), self') ∧
    image_array self' = Some (pushed e img) ∧
    metadata_table self' = Some t.
Proof.
  intros Hc Hs. apply created_from_inv in Hc
    as (f & e & Hatt & Ho & Hw & Hfn & He & Ha & His & H0 & Hcls).
  pose proof Hatt as (Hf & Hd & Hm).
  destruct (tables.metadata (root f)) as [t|] eqn:Ht; [|done].
  exists e, t, (set_h5file self (set_earray f (pushed e img))).
  rewrite <- (set_h5file_id self f Hf) at 1 2 3.
  rewrite add_image_run by done.
  rewrite (EArray_append_item f e) by (try done; by rewrite His).
  unfold image_array, metadata_table. simpl. rewrite Hd, Hm. simpl.
  by rewrite He, Ht.
Qed.

(** X12.  A metadata dict with a key that names no column makes
    [add_image] raise [KeyError] after the image is appended: no row is
    handed to the table, and the fields assigned before the failing key
    stay in the row being filled. *)
Theorem unknown_metadata_key fn img0 cls self img pre key v post :
  created_from fn img0 (Some cls) self →
  np.shape img = np.shape img0 →
  Forall (λ kv, ∃ c, cls !! kv.1 = Some c ∧ coerce c kv.2 = Ok kv.2) pre →
  cls !! key = None →
  ∃ e t self' t',
    image_array self = Some e ∧ metadata_table self = Some t ∧
    add_image img (Some (pre ++ (key, v) :: post)) self = (Raise KeyError, self') ∧
    image_array self' = Some (pushed e img) ∧
    metadata_table self' = Some t' ∧
    rows_of t' = rows_of t ∧
    wrec (row t') = foldl (λ r kv, <[kv.1 := kv.2]> r) (wrec (row t)) pre.
Proof.
  intros Hc Hs Hpre Hkey. apply created_from_inv in Hc
    as (f & e & Hatt & Ho & Hw & Hfn & He & Ha & His & H0 & Hcls).
  pose proof Hatt as (Hf & Hd & Hm).
  destruct (tables.metadata (root f)) as [t|] eqn:Ht; [|done].
  injection Hcls as Hcls.
  set (t' := set_row t {| wrec := foldl (λ r kv, <[kv.1 := kv.2]> r) (wrec (row t)) pre;
                          iobuf := iobuf (row t) |}).
  exists e, t, (set_h5file self (set_table (set_earray f (pushed e img)) t')), t'.
  rewrite <- (set_h5file_id self f Hf) at 1 2 3.
  rewrite add_image_run by done.
  rewrite (EArray_append_item f e) by (try done; by rewrite His).
  unfold bind at 1. rewrite _get_metadata_row_run, Hm.
  rewrite (Table_row_open _ t) by done.
  assert (∀ items self1 f1 t1,
            tables.metadata (root f1) = Some t1 → writable f1 = true →
            description t1 = cls →
            Forall (λ kv, ∃ c, cls !! kv.1 = Some c ∧ coerce c kv.2 = Ok kv.2) items →
            set_fields (Some root_metadata) (items ++ (key, v) :: post)
              (set_h5file self1 f1) =
            (Raise KeyError,
             set_h5file self1
               (set_table f1 (set_row t1
                  {| wrec := foldl (λ r kv, <[kv.1 := kv.2]> r) (wrec (row t1)) items;
                     iobuf := iobuf (row t1) |})))) as Hset.
  { clear -Hkey. induction items as [|[k x] items IH]; intros self1 f1 t1 Ht1 Hw1 Hd1 Hfit; simpl.
    - unfold bind at 1. rewrite on_file_run.
      unfold Row_setitem. simpl. rewrite Ht1, Hw1, Hd1, Hkey. simpl.
      do 2 f_equal. symmetry. destruct t1 as [? ? []]; simpl. by apply set_table_id.
    - apply Forall_cons in Hfit as [(c & Hc & Hx) Hfit]. simpl in *.
      unfold bind at 1. rewrite on_file_run.
      unfold Row_setitem. simpl. rewrite Ht1, Hw1, Hd1, Hc, Hx. simpl.
      rewrite (IH _ _ (set_row t1 {| wrec := <[k:=x]> (wrec (row t1));
                                     iobuf := iobuf (row t1) |})); done. }
  unfold bind at 1. rewrite (Hset pre self _ t); try done.
  unfold image_array, metadata_table. simpl. rewrite Hd, Hm. simpl.
  by rewrite He, Ht.
Qed.

(** The table found when a stack created with a schema and filled by
    calls with fitting metadata is torn down and reopened read-only. *)
Lemma reopened_table fn img0 cls mode w self0 w0
    (calls : list (np.ndarray * list (string * Value))) :
  new fn (Some img0) (Some cls) mode w = (Ok self0, w0) →
  Forall (λ c, np.shape c.1 = np.shape img0 ∧ fits cls c.2) calls →
  ∃ self1 w1 self2 w2 t,
    __del__ (add_images (with_metadata calls) self0) w0 = (Ok (), self1, w1) ∧
    new fn None None None w1 = (Ok self2, w2) ∧
    has_metadata self2 = (Ok true, self2) ∧
    shape self2 = (Ok (length calls :: np.shape img0), self2) ∧
    metadata_table self2 = Some t ∧
    description t = cls ∧
    Table_len t = length calls ∧
    ∀ i c, calls !! i = Some c → Table_getitem t i = Ok (record_of cls c.2).
Proof.
  intros Hnew Hcalls. pose proof (new_create_free _ _ _ _ _ _ _ Hnew) as Hfree.
  apply new_create in Hnew as (H0 & -> & ->).
  set (self0 := created_stack fn img0 (Some cls)).
  set (f0 := created_file fn img0 (Some cls)).
  destruct (add_images_rows calls self0 f0 (new_earray img0) (new_table cls))
    as (t & Hrun & _ & Hdesc & _ & Hrows); try done.
  change (set_h5file self0 f0) with self0 in Hrun.
  set (e := foldl pushed (new_earray img0) calls.*1) in *.
  destruct (pushed_all_fields (new_earray img0) calls.*1) as (_ & Hs & Hn & _).
  fold e in Hs, Hn. simpl in Hs, Hn. rewrite length_fmap in Hn.
  simpl in Hrows, Hdesc. unfold rows_of in Hrows.
  set (f' := set_table (set_earray f0 e) t) in *.
  set (g := close_group (root f')).
  exists (set_h5file (set_h5file self0 f')
            {| tables.filename := fn; tables.mode := "w"; isopen := false; root := g |}),
         (store fn g (store fn empty_group w)),
         (opened_stack fn "r" g).
  eexists _, (close_table t).
  pose proof (opened_attached fn "r" g) as Hatt2.
  assert (saved (close_table t) = (λ c, record_of cls c.2) <$> calls) as Hsaved by done.
  split; [|split; [|split; [|split; [|split; [|split; [|split]]]]]].
  - rewrite Hrun. rewrite (del_attached _ f') by done. simpl.
    by rewrite unregister_store.
  - unfold new. simpl.
    rewrite (init_open fn None "r" _ g e); [done|by left| | |done].
    + unfold open_modes. simpl. fold (open_modes fn w). by rewrite Hfree.
    + simpl. apply lookup_insert_eq.
  - done.
  - rewrite (shape_attached _ _ e Hatt2) by done. by rewrite Hn, Hs.
  - done.
  - done.
  - unfold Table_len. by rewrite Hsaved, length_fmap.
  - intros i c Hi. unfold Table_getitem. by rewrite Hsaved, list_lookup_fmap, Hi.
Qed.
(** X13.  Metadata survives teardown.  After a stack is created with a
    schema, filled by calls whose metadata fits it, torn down and reopened
    read-only, the reopened stack has metadata, its table has the schema
    and as many rows as the stack has images, and row [i] is the record of
    the dict passed with image [i]. *)
Theorem metadata_roundtrip fn img0 cls mode w self0 w0
    (calls : list (np.ndarray * list (string * Value))) :
  new fn (Some img0) (Some cls) mode w = (Ok self0, w0) →
  Forall (λ c, np.shape c.1 = np.shape img0 ∧ fits cls c.2) calls →
  ∃ self1 w1 self2 w2 t,
    __del__ (add_images (with_metadata calls) self0) w0 = (Ok (), self1, w1) ∧
    new fn None None None w1 = (Ok self2, w2) ∧
    has_metadata self2 = (Ok true, self2) ∧
    shape self2 = (Ok (length calls :: np.shape img0), self2) ∧
    metadata_table self2 = Some t ∧
    description t = cls ∧
    Table_len t = length calls ∧
    ∀ i c, calls !! i = Some c → Table_getitem t i = Ok (record_of cls c.2).
Proof. apply reopened_table. Qed.

(** X14.  Each stored row holds what its own dict gave and nothing of the
    rows before it: in the reopened table, row [i] maps every key of the
    dict passed with image [i] to the value given, and every column the
    dict left out to the column's default. *)
Theorem omitted_fields_get_defaults fn img0 cls mode w self0 w0
    (calls : list (np.ndarray * list (string * Value))) :
  new fn (Some img0) (Some cls) mode w = (Ok self0, w0) →
  Forall (λ c, np.shape c.1 = np.shape img0 ∧ fits cls c.2) calls →
  ∃ self1 w1 self2 w2 t,
    __del__ (add_images (with_metadata calls) self0) w0 = (Ok (), self1, w1) ∧
    new fn None None None w1 = (Ok self2, w2) ∧
    metadata_table self2 = Some t ∧
    ∀ i c, calls !! i = Some c →
      ∃ r, Table_getitem t i = Ok r ∧
           (∀ k v, (k, v) ∈ c.2 → r !! k = Some v) ∧
           (∀ k, k ∉ c.2.*1 → r !! k = dflt <$> cls !! k).
Proof.
  intros Hnew Hcalls.
  destruct (reopened_table _ _ _ _ _ _ _ _ Hnew Hcalls)
    as (self1 & w1 & self2 & w2 & t & Hdel & Hopen & _ & _ & Ht & _ & _ & Hrows).
  exists self1, w1, self2, w2, t. repeat split; try done.
  intros i c Hi. exists (record_of cls c.2). split; [by apply Hrows|].
  rewrite Forall_lookup in Hcalls. destruct (Hcalls _ _ Hi) as (_ & Hnd & _).
  unfold record_of. split.
  - intros k v Hkv. apply lookup_union_Some_l. by apply elem_of_list_to_map_1.
  - intros k Hk. rewrite lookup_union_r by (by apply not_elem_of_list_to_map_1).
    unfold default_record. by rewrite lookup_fmap.
Qed.
End later_sessions.

(** ** Concrete runs *)

Module Runs.
Import Demo tables pyImageStack.

Lemma plain_created : created_from "a.h5" (img uint8 0 0 0 0) None plain.
Proof. by exists None, world0, world1, plain, []. Defined.

Lemma not_0_in_2_2 : 0 ∉ [2; 2].
Proof. intros Hin. by repeat (apply elem_of_cons in Hin as [?|Hin]; [done|]); inversion Hin. Defined.

Lemma roundtrip_witness :
  ∃ self1 w1 self2 w2,
    __del__ (add_images [(img uint8 1 2 3 4, Some [("count", VInt 10)]);
                         (img uint8 5 6 7 8, None)] annotated) world1
      = (Ok (), self1, w1) ∧
    new "a.h5" None None None w1 = (Ok self2, w2) ∧
    shape self2 = (Ok [2; 2; 2], self2) ∧
    has_metadata self2 = (Ok true, self2) ∧
    ∀ i c, [(img uint8 1 2 3 4, Some [("count", VInt 10)]);
            (img uint8 5 6 7 8, None)] !! i = Some c →
           __getitem__ i self2 = (Ok c.1, self2).
Proof.
  apply (roundtrip "a.h5" (img uint8 0 0 0 0) (Some schema) None world0
           annotated world1); [reflexivity|].
  repeat constructor.
Defined.

Lemma new_stack_empty_witness :
  image_array annotated =
    Some {| tables.atom := uint8; nrows := 0; item_shape := [2; 2]; buf := [] |} ∧
  atom annotated = Some uint8 ∧
  shape annotated = (Ok [0; 2; 2], annotated) ∧
  __iter__ annotated = (Ok [], annotated).
Proof.
  apply (new_stack_empty "a.h5" (img uint8 0 0 0 0) (Some schema) (Some "a") world0
           annotated world1).
  reflexivity.
Defined.

Lemma open_without_metadata_witness :
  ∃ self w',
    new "plain.h5" None None None world_plain_file = (Ok self, w') ∧
    metadata self = Some None ∧
    has_metadata self = (Ok false, self).
Proof.
  eapply (open_without_metadata "plain.h5" None None world_plain_file).
  - apply list_elem_of_here.
  - apply not_elem_of_nil.
  - reflexivity.
  - reflexivity.
  - reflexivity.
Defined.

Lemma shape_live_witness :
  (∀ s, (shape s).2 = s) ∧
  (∃ e, image_array plain = Some e ∧ tables.shape e = [0; 2; 2]) ∧
  (∃ e', image_array (add_image (img uint8 1 2 3 4) None plain).2 = Some e' ∧
         tables.shape e' = [1; 2; 2]) ∧
  shape (add_image (img uint8 1 2 3 4) None plain).2 =
    (Ok [1; 2; 2], (add_image (img uint8 1 2 3 4) None plain).2).
Proof.
  apply (shape_live plain (img uint8 1 2 3 4) None).
  - reflexivity.
  - exact not_0_in_2_2.
  - reflexivity.
Defined.

Lemma add_image_metadata_without_table_witness :
  ∃ e self',
    image_array plain = Some e ∧
    shape plain = (Ok (nrows e :: [2; 2]), plain) ∧
    add_image (img uint8 1 2 3 4) (Some [("count", VInt 10)]) plain =
      (Raise TypeError, self') ∧
    image_array self' = Some (pushed e (img uint8 1 2 3 4)) ∧
    shape self' = (Ok (S (nrows e) :: [2; 2]), self').
Proof.
  apply (add_image_metadata_without_table "a.h5" (img uint8 0 0 0 0) plain
           (img uint8 1 2 3 4) [("count", VInt 10)]).
  - exact plain_created.
  - reflexivity.
Defined.

Lemma stack10_created : created_from "b.h5" (zeros 10) None stack10.
Proof.
  by exists None, world0, (register "b.h5" "w" (store "b.h5" empty_group world0)),
            stack10, [].
Defined.

Lemma add_image_shape_mismatch_witness :
  add_image (zeros 5) None stack10 = (Raise ValueError, stack10) ∧
  shape stack10 = (Ok [0; 10; 10], stack10).
Proof.
  split; [|reflexivity].
  apply (add_image_shape_mismatch "b.h5" (zeros 10) None stack10 (zeros 5) None
           stack10_created).
  simpl. intros [=].
Defined.

Lemma fits_count (z : Z) :
  (- 2 ^ 31 ≤ z < 2 ^ 31)%Z → fits (H := engine) schema [("count", VInt z)].
Proof.
  intros Hz. split.
  - repeat constructor. intros Hin. inversion Hin.
  - repeat constructor. exists Int32Col. split; [reflexivity|].
    simpl. by rewrite bool_decide_eq_true_2.
Defined.

Lemma metadata_aligned_witness :
  let self := add_images (with_metadata three_calls) annotated in
  outcomes (with_metadata three_calls) annotated = replicate 3 (Ok ()) ∧
  shape self = (Ok [3; 2; 2], self) ∧
  (∃ t, metadata_table self = Some t ∧
        length (saved t) + length (iobuf (row t)) = 3) ∧
  ∃ self' t',
    flush_metadata self = (Ok (), self') ∧
    shape self' = (Ok [3; 2; 2], self') ∧
    metadata_table self' = Some t' ∧
    Table_len t' = 3 ∧
    ∀ i c, three_calls !! i = Some c →
      __getitem__ i self' = (Ok (np.array c.1 uint8), self') ∧
      Table_getitem t' i = Ok (record_of schema c.2).
Proof.
  apply (metadata_aligned "a.h5" (img uint8 0 0 0 0) schema None world0
           annotated world1 three_calls); [reflexivity|].
  repeat (apply Forall_cons_2;
          [split; [reflexivity|split; [reflexivity|apply fits_count; lia]]|]).
  apply Forall_nil_2.
Defined.

(** C2.  On a stack without a metadata table, [add_image] with the
    metadata dict [{'count': 10}] does not discard the dict silently: it
    appends the image and then raises [TypeError], the row being
    [None]. *)
Theorem metadata_without_table_raises :
  new "a.h5" (Some (img uint8 0 0 0 0)) None None world0 = (Ok plain, world1) ∧
  has_metadata plain = (Ok false, plain) ∧
  (add_image (img uint8 1 2 3 4) (Some [("count", VInt 10)]) plain).1
    = Raise TypeError ∧
  (shape (add_image (img uint8 1 2 3 4) (Some [("count", VInt 10)]) plain).2).1
    = Ok [1; 2; 2].
Proof. repeat split. Qed.

(** C3 as stated fails.  After one call with fitting metadata on a stack
    created with a schema the call has returned and [shape[0]] is 1, but
    the row is still in the table's I/O buffer: [len(metadata)] is 0 and
    [metadata[0]] is out of range. *)
Lemma metadata_length_lags :
  new "a.h5" (Some (img uint8 0 0 0 0)) (Some schema) None world0
    = (Ok annotated, world1) ∧
  fits schema [("count", VInt 10)] ∧
  let '(r, self) :=
    add_image (img uint8 1 2 3 4) (Some [("count", VInt 10)]) annotated in
  r = Ok () ∧
  (shape self).1 = Ok [1; 2; 2] ∧
  metadata_len self = Some 0 ∧
  (λ t, Table_getitem t 0) <$> metadata_table self = Some (Raise IndexError).
Proof.
  split; [reflexivity|]. split; [by apply fits_count|]. repeat split.
Qed.

(** C4 as stated fails.  Opening a container that lacks the image array
    raises [NoSuchNodeError] after the file was opened; the handle stays
    in the registry, and teardown of the instance, which has no
    [metadata] attribute yet, raises [AttributeError] before it reaches
    [close()]. *)
Lemma failed_open_leaks_handle :
  let '(r, self, w) := __init__ "empty.h5" None None "r" world_empty_file in
  r = Raise NoSuchNodeError ∧
  open_files world_empty_file = [] ∧
  open_files w = ["empty.h5"] ∧
  __del__ self w = (Raise AttributeError, self, w).
Proof. repeat split. Qed.

(** C5 as stated fails.  A [uint16] image of the item shape appended to a
    new stack of [uint8] images is not refused: the call returns and
    [shape[0]] goes from 0 to 1. *)
Lemma other_dtype_is_appended :
  new "a.h5" (Some (img uint8 0 0 0 0)) None None world0 = (Ok plain, world1) ∧
  np.dtype (img uint16 1 2 3 400) ≠ np.dtype (img uint8 0 0 0 0) ∧
  (shape plain).1 = Ok [0; 2; 2] ∧
  let '(r, self) := add_image (img uint16 1 2 3 400) None plain in
  r = Ok () ∧
  (shape self).1 = Ok [1; 2; 2] ∧
  (__getitem__ 0 self).1 = Ok (img uint8 1 2 3 144).
Proof. split; [reflexivity|]. split; [intros [=]|]. repeat split. Qed.
End Runs.

(** ** More concrete runs *)

Module MoreRuns.
Import Demo tables pyImageStack.

Lemma iter_agrees_with_getitem_witness :
  (∃ items, shape (add_image (img uint8 1 2 3 4) None plain).2
              = (Ok (length [img uint8 1 2 3 4] :: items),
                 (add_image (img uint8 1 2 3 4) None plain).2)) ∧
  ∀ i, __getitem__ i (add_image (img uint8 1 2 3 4) None plain).2 =
         (match [img uint8 1 2 3 4] !! i with
          | Some a => Ok a
          | None => Raise IndexError
          end, (add_image (img uint8 1 2 3 4) None plain).2).
Proof.
  apply (iter_agrees_with_getitem _ (add_image (img uint8 1 2 3 4) None plain).2).
  reflexivity.
Defined.

Lemma has_metadata_stable_witness :
  (∃ b, has_metadata annotated = (Ok b, annotated) ∧
        has_metadata (add_images [(img uint8 1 2 3 4, None)] annotated)
          = (Ok b, add_images [(img uint8 1 2 3 4, None)] annotated)) ∧
  (is_Some (Some (img uint8 0 0 0 0)) →
   has_metadata annotated = (Ok (bool_decide (is_Some (Some schema))), annotated)).
Proof.
  apply (has_metadata_stable "a.h5" (Some (img uint8 0 0 0 0)) (Some schema) None
           world0 annotated world1).
  reflexivity.
Defined.

Lemma read_only_stack_witness :
  (∀ img md, add_image img md plain_read = (Raise FileModeError, plain_read)) ∧
  (∀ calls : list call, add_images calls plain_read = plain_read) ∧
  ∃ self1, __del__ plain_read (register "plain.h5" "r" world_plain_file)
             = (Ok (), self1, world_plain_file).
Proof.
  apply (read_only_stack "plain.h5" None None world_plain_file).
  - by left.
  - reflexivity.
Defined.

Lemma read_only_open_twice_witness :
  ∃ self2 w2 l,
    new "plain.h5" None None None (register "plain.h5" "r" world_plain_file)
      = (Ok self2, w2) ∧
    __iter__ plain_read = (Ok l, plain_read) ∧
    __iter__ self2 = (Ok l, self2) ∧
    disk (register "plain.h5" "r" world_plain_file) = disk world_plain_file ∧
    disk w2 = disk world_plain_file.
Proof.
  apply (read_only_open_twice "plain.h5" None None world_plain_file plain_read).
  reflexivity.
Defined.

Lemma missing_file_witness :
  new "nonexistent.store" None None None world0 = (Raise OSError, world0) ∧
  _h5file (__init__ "nonexistent.store" None None
             (default default_mode None) world0).1.2 = None.
Proof.
  apply (missing_file "nonexistent.store" None None world0).
  - reflexivity.
  - apply list_elem_of_here.
Defined.

Lemma write_mode_without_template_witness :
  let w' := register "plain.h5" "w" (store "plain.h5" empty_group world_plain_file) in
  new "plain.h5" None None (Some "w") world_plain_file = (Raise NoSuchNodeError, w') ∧
  disk w' !! "plain.h5" = Some empty_group ∧
  open_files w' = "plain.h5" :: open_files world_plain_file ∧
  (disk world_plain_file !! "plain.h5" = None →
   new "plain.h5" None None (Some "a") world_plain_file =
     (Raise NoSuchNodeError,
      register "plain.h5" "a" (store "plain.h5" empty_group world_plain_file))).
Proof.
  apply (write_mode_without_template "plain.h5" None world_plain_file).
  apply not_elem_of_nil.
Defined.

Lemma closed_stack_witness :
  (∀ img md,
     add_image img md (__del__ (add_images mixed_calls plain) world1).1.2
     = (Raise ClosedNodeError, (__del__ (add_images mixed_calls plain) world1).1.2)) ∧
  (∀ i,
     __getitem__ i (__del__ (add_images mixed_calls plain) world1).1.2
     = (Raise ClosedNodeError, (__del__ (add_images mixed_calls plain) world1).1.2)) ∧
  (has_metadata (__del__ (add_images mixed_calls plain) world1).1.2).1
    = (has_metadata plain).1.
Proof.
  apply (closed_stack "a.h5" (Some (img uint8 0 0 0 0)) None None world0 plain world1
           mixed_calls
           (__del__ (add_images mixed_calls plain) world1).1.1
           _
           (__del__ (add_images mixed_calls plain) world1).2).
  - reflexivity.
  - reflexivity.
Defined.

Lemma stack_holds_accepted_images_witness :
  let self := add_images mixed_calls plain in
  let kept := (λ a, np.array a (np.dtype (img uint8 0 0 0 0))) <$>
                filter (λ a, np.shape a = np.shape (img uint8 0 0 0 0)) mixed_calls.*1 in
  shape self = (Ok (length kept :: np.shape (img uint8 0 0 0 0)), self) ∧
  __iter__ self = (Ok kept, self) ∧
  ∀ i a, kept !! i = Some a → __getitem__ i self = (Ok a, self).
Proof.
  apply (stack_holds_accepted_images "a.h5" (img uint8 0 0 0 0) None None world0
           plain world1 mixed_calls).
  - reflexivity.
  - repeat (apply Forall_cons_2; [reflexivity|]). apply Forall_nil_2.
Defined.

Lemma plain_array_wf : EArray_wf plain_array.
Proof. split; [exact Runs.not_0_in_2_2|reflexivity]. Defined.

Lemma append_session_witness :
  ∃ self0 w0 self1 w1 self2 w2,
    new "plain.h5" None None (Some "a") world_plain_file = (Ok self0, w0) ∧
    __del__ (add_images [(img uint8 5 6 7 8, None)] self0) w0 = (Ok (), self1, w1) ∧
    new "plain.h5" None None None w1 = (Ok self2, w2) ∧
    shape self2 = (Ok (1 + 1 :: [2; 2]), self2) ∧
    __iter__ self2 =
      (Ok (items_of plain_array ++ [np.array (img uint8 5 6 7 8) uint8]), self2).
Proof.
  apply (append_session "plain.h5" None "a" world_plain_file plain_group plain_array
           [(img uint8 5 6 7 8, None)]).
  - by left.
  - apply not_elem_of_nil.
  - reflexivity.
  - reflexivity.
  - exact plain_array_wf.
  - apply Forall_cons_2; [split; reflexivity|]. apply Forall_nil_2.
Defined.

Lemma annotated_created : created_from "a.h5" (img uint8 0 0 0 0) (Some schema) annotated.
Proof. by exists None, world0, world1, annotated, []. Defined.

Lemma add_image_without_metadata_witness :
  ∃ e t self',
    image_array annotated = Some e ∧ metadata_table annotated = Some t ∧
    add_image (img uint8 1 2 3 4) None annotated = (Ok (), self') ∧
    image_array self' = Some (pushed e (img uint8 1 2 3 4)) ∧
    metadata_table self' = Some t.
Proof.
  apply (add_image_without_metadata "a.h5" (img uint8 0 0 0 0) schema annotated).
  - exact annotated_created.
  - reflexivity.
Defined.

Lemma unknown_metadata_key_witness :
  ∃ e t self' t',
    image_array annotated = Some e ∧ metadata_table annotated = Some t ∧
    add_image (img uint8 1 2 3 4)
      (Some ([("count", VInt 7)] ++ ("exposure", VInt 3) :: [])) annotated
      = (Raise KeyError, self') ∧
    image_array self' = Some (pushed e (img uint8 1 2 3 4)) ∧
    metadata_table self' = Some t' ∧
    rows_of t' = rows_of t ∧
    wrec (row t') = foldl (λ r kv, <[kv.1 := kv.2]> r) (wrec (row t)) [("count", VInt 7)].
Proof.
  apply (unknown_metadata_key "a.h5" (img uint8 0 0 0 0) schema annotated).
  - exact annotated_created.
  - reflexivity.
  - apply Forall_cons_2; [|apply Forall_nil_2].
    exists Int32Col. split; reflexivity.
  - reflexivity.
Defined.

Lemma two_calls_fit :
  Forall (λ c : np.ndarray * list (string * value),
            np.shape c.1 = np.shape (img uint8 0 0 0 0) ∧ fits schema2 c.2) two_calls.
Proof.
  repeat (apply Forall_cons_2;
          [split; [reflexivity|split;
             [apply NoDup_singleton
             |apply Forall_cons_2; [|apply Forall_nil_2]]]|]);
    [exists Int32Col; split; reflexivity
    |exists Int64Col; split; reflexivity
    |apply Forall_nil_2].
Defined.

Lemma metadata_roundtrip_witness :
  ∃ self1 w1 self2 w2 t,
    __del__ (add_images (with_metadata two_calls) labelled)
      (register "c.h5" "w" (store "c.h5" empty_group world0)) = (Ok (), self1, w1) ∧
    new "c.h5" None None None w1 = (Ok self2, w2) ∧
    has_metadata self2 = (Ok true, self2) ∧
    shape self2 = (Ok (length two_calls :: [2; 2]), self2) ∧
    metadata_table self2 = Some t ∧
    description t = schema2 ∧
    Table_len t = length two_calls ∧
    ∀ i c, two_calls !! i = Some c → Table_getitem t i = Ok (record_of schema2 c.2).
Proof.
  apply (metadata_roundtrip "c.h5" (img uint8 0 0 0 0) schema2 None world0 labelled).
  - reflexivity.
  - exact two_calls_fit.
Defined.

Lemma omitted_fields_get_defaults_witness :
  ∃ self1 w1 self2 w2 t,
    __del__ (add_images (with_metadata two_calls) labelled)
      (register "c.h5" "w" (store "c.h5" empty_group world0)) = (Ok (), self1, w1) ∧
    new "c.h5" None None None w1 = (Ok self2, w2) ∧
    metadata_table self2 = Some t ∧
    ∀ i c, two_calls !! i = Some c →
      ∃ r, Table_getitem t i = Ok r ∧
           (∀ k v, (k, v) ∈ c.2 → r !! k = Some v) ∧
           (∀ k, k ∉ c.2.*1 → r !! k = dflt <$> schema2 !! k).
Proof.
  apply (omitted_fields_get_defaults "c.h5" (img uint8 0 0 0 0) schema2 None world0
           labelled).
  - reflexivity.
  - exact two_calls_fit.
Defined.
End MoreRuns.
